(** * Verification of the audio transcription gateway (src/server.py)

    The gateway is a Flask application with three routes: [transcribe],
    [ask_ollama] and [health].  This development embeds the handlers and
    the helper [convert_audio_to_wav] as functions over an explicit world
    (a file system and a trace of the system calls made), and states the
    properties of the specification over that embedding.

    Modelling conventions.
    - Python values that come from JSON are terms of [json]; a [dict] is a
      [gmap string json].  Numbers are integers.
    - A [str] is a [string] whose characters are code points below 256.
    - Exceptions are values of [exn]: a class and the text of [str(e)].
      The texts of exceptions raised by the Python runtime and its
      libraries follow CPython 3.11 and requests 2.x.
    - The file system is a [gmap path (list byte)].  Temporary files get a
      fresh name.  A world also says what its storage refuses ([faults]):
      creating a temporary file and writing to one can raise.  [World fs
      tr] and [init fs] are worlds whose storage refuses nothing.
    - What lies outside the program is an environment [env] of oracles:
      the external conversion tool ([subprocess_run]), the HTTP backends
      ([requests_post]) and refusals of file deletion ([unlink_denied]).
      [subprocess.run] raises [FileNotFoundError] (binary not on the
      path), raises another exception (the binary cannot be executed, the
      captured output is not valid text), or returns a completed process.
    - Writes to standard output ([print]) are not modelled. *)

From Stdlib Require Import ZArith Lia String Ascii List.
From Stdlib.Strings Require Import Byte.
From stdpp Require Import base gmap strings list fin_maps pretty.

Open Scope string_scope.
Open Scope list_scope.
Open Scope Z_scope.

Set Warnings "-register-all".

(** ** Python strings *)

(** [needle in hay] for two [str] operands. *)
Fixpoint str_in (needle hay : string) : bool :=
  String.prefix needle hay
  || match hay with
     | EmptyString => false
     | String _ t => str_in needle t
     end.

(** [str.isspace] on one character, for code points below 256. *)
Definition is_space (c : ascii) : bool :=
  let n := N_of_ascii c in
  ((9 <=? n) && (n <=? 13) || (28 <=? n) && (n <=? 32)
   || (n =? 133) || (n =? 160))%N.

Fixpoint lstrip (s : string) : string :=
  match s with
  | EmptyString => EmptyString
  | String c t => if is_space c then lstrip t else s
  end.

Fixpoint rstrip (s : string) : string :=
  match s with
  | EmptyString => EmptyString
  | String c t =>
      match rstrip t with
      | EmptyString => if is_space c then EmptyString else String c EmptyString
      | t' => String c t'
      end
  end.

(** [s.strip()] *)
Definition strip (s : string) : string := rstrip (lstrip s).

(** ** Exceptions *)

Inductive exn_class :=
| ExceptionC | FileNotFoundErrorC | PermissionErrorC | UnboundLocalErrorC
| TypeErrorC | AttributeErrorC | KeyErrorC | ValueErrorC | BinasciiErrorC
| HTTPErrorC | ConnectionErrorC | BadRequestC | OSErrorC | UnicodeDecodeErrorC.

Record exn := Exn { exn_class_of : exn_class; str_exn : string }.

Global Instance exn_class_eq_dec : EqDecision exn_class.
Proof. solve_decision. Defined.

(** ** JSON values and the Python operations the handlers apply to them *)

Inductive json :=
| JNull
| JBool (b : bool)
| JNum (z : Z)
| JStr (s : string)
| JArr (l : list json)
| JObj (m : gmap string json).

Definition type_name (v : json) : string :=
  match v with
  | JNull => "NoneType"
  | JBool _ => "bool"
  | JNum _ => "int"
  | JStr _ => "str"
  | JArr _ => "list"
  | JObj _ => "dict"
  end.

(** Truth value of [v], as tested by [not v]. *)
Definition truthy (v : json) : bool :=
  match v with
  | JNull => false
  | JBool b => b
  | JNum z => negb (z =? 0)
  | JStr s => negb (String.eqb s "")
  | JArr l => match l with [] => false | _ => true end
  | JObj m => negb (bool_decide (m = ∅))
  end.

Definition is_str (key : string) (v : json) : bool :=
  match v with
  | JStr s => String.eqb s key
  | _ => false
  end.

(** [key in v] for a [str] key. *)
Definition py_contains (key : string) (v : json) : exn + bool :=
  match v with
  | JObj m => inr (bool_decide (is_Some (m !! key)))
  | JArr l => inr (existsb (is_str key) l)
  | JStr s => inr (str_in key s)
  | _ => inl (Exn TypeErrorC
                ("argument of type '" +:+ type_name v +:+ "' is not iterable"))
  end.

(** [v[key]] for a [str] key. *)
Definition py_getitem (v : json) (key : string) : exn + json :=
  match v with
  | JObj m =>
      match m !! key with
      | Some x => inr x
      | None => inl (Exn KeyErrorC ("'" +:+ key +:+ "'"))
      end
  | JArr _ => inl (Exn TypeErrorC "list indices must be integers or slices, not str")
  | JStr _ => inl (Exn TypeErrorC "string indices must be integers, not 'str'")
  | _ => inl (Exn TypeErrorC ("'" +:+ type_name v +:+ "' object is not subscriptable"))
  end.

(** [v.get(key, dflt)]: only a [dict] has the method. *)
Definition py_get (v : json) (key : string) (dflt : json) : exn + json :=
  match v with
  | JObj m => inr (default dflt (m !! key))
  | _ => inl (Exn AttributeErrorC
                ("'" +:+ type_name v +:+ "' object has no attribute 'get'"))
  end.

(** [len(v)] *)
Definition py_len (v : json) : exn + nat :=
  match v with
  | JStr s => inr (String.length s)
  | JArr l => inr (length l)
  | JObj m => inr (size m)
  | _ => inl (Exn TypeErrorC
                ("object of type '" +:+ type_name v +:+ "' has no len()"))
  end.

(** [v.strip()]: only a [str] has the method. *)
Definition py_strip (v : json) : exn + json :=
  match v with
  | JStr s => inr (JStr (strip s))
  | _ => inl (Exn AttributeErrorC
                ("'" +:+ type_name v +:+ "' object has no attribute 'strip'"))
  end.

(** ** base64

    [b64decode] follows [base64.b64decode(s)] of the Python library with
    its default [validate=False]: the argument is encoded to ASCII, then
    [binascii.a2b_base64] runs its four-state loop, skipping every
    character outside the alphabet and stopping at a complete pad. *)

Module Base64.

Definition alphabet : string :=
  "ABCDEFGHIJKLMNOPQRSTUVWXYZabcdefghijklmnopqrstuvwxyz0123456789+/".

Definition BASE64_PAD : ascii := "="%char.

Definition table_b2a_base64 (v : Z) : ascii :=
  default BASE64_PAD (String.get (Z.to_nat v) alphabet).

Fixpoint index_of (c : ascii) (s : string) (i : Z) : Z :=
  match s with
  | EmptyString => 255
  | String d t => if Ascii.eqb c d then i else index_of c t (i + 1)
  end.

(** Entries of 64 and above mark a character outside the alphabet. *)
Definition table_a2b_base64 (c : ascii) : Z := index_of c alphabet 0.

Definition byte_val (b : byte) : Z := Z.of_N (Byte.to_N b).

Definition byte_of_Z (z : Z) : byte :=
  default "000"%byte (Byte.of_N (Z.to_N (Z.land z 255))).

Definition sextet0 (a : Z) : Z := Z.shiftr a 2.
Definition sextet1 (a b : Z) : Z := Z.lor (Z.shiftl (Z.land a 3) 4) (Z.shiftr b 4).
Definition sextet2 (b c : Z) : Z := Z.lor (Z.shiftl (Z.land b 15) 2) (Z.shiftr c 6).
Definition sextet3 (c : Z) : Z := Z.land c 63.

(** [base64.b64encode(B)]: the standard encoding with padding, three
    bytes to four characters; it is what a client puts in [audio_data]. *)
Fixpoint b64encode (B : list byte) : string :=
  match B with
  | [] => ""
  | [a] =>
      String (table_b2a_base64 (sextet0 (byte_val a)))
     (String (table_b2a_base64 (sextet1 (byte_val a) 0))
     (String BASE64_PAD (String BASE64_PAD "")))
  | [a; b] =>
      String (table_b2a_base64 (sextet0 (byte_val a)))
     (String (table_b2a_base64 (sextet1 (byte_val a) (byte_val b)))
     (String (table_b2a_base64 (sextet2 (byte_val b) 0))
     (String BASE64_PAD "")))
  | a :: b :: c :: rest =>
      String (table_b2a_base64 (sextet0 (byte_val a)))
     (String (table_b2a_base64 (sextet1 (byte_val a) (byte_val b)))
     (String (table_b2a_base64 (sextet2 (byte_val b) (byte_val c)))
     (String (table_b2a_base64 (sextet3 (byte_val c)))
     (b64encode rest))))
  end.

Definition bad_length_msg (written : nat) : string :=
  "Invalid base64-encoded string: number of data characters ("
  +:+ pretty (Z.of_nat written / 3 * 4 + 1)
  +:+ ") cannot be 1 more than a multiple of 4".

(** The loop of [binascii.a2b_base64] in its non-strict mode.
    [quad_pos] counts the data characters of the current group,
    [leftchar] holds the bits not yet written, [pads] the pad characters
    seen since the last data character. *)
Fixpoint a2b_base64 (ascii_data : string) (quad_pos leftchar pads : Z)
    (bin_data : list byte) : exn + list byte :=
  match ascii_data with
  | EmptyString =>
      if quad_pos =? 0 then inr bin_data
      else if quad_pos =? 1
           then inl (Exn BinasciiErrorC (bad_length_msg (length bin_data)))
           else inl (Exn BinasciiErrorC "Incorrect padding")
  | String this_ch rest =>
      if Ascii.eqb this_ch BASE64_PAD then
        if (2 <=? quad_pos) && (4 <=? quad_pos + (pads + 1)) then inr bin_data
        else a2b_base64 rest quad_pos leftchar
               (if 2 <=? quad_pos then pads + 1 else pads) bin_data
      else
        let this_ch := table_a2b_base64 this_ch in
        if 64 <=? this_ch then a2b_base64 rest quad_pos leftchar pads bin_data
        else if quad_pos =? 0 then a2b_base64 rest 1 this_ch 0 bin_data
        else if quad_pos =? 1 then
          a2b_base64 rest 2 (Z.land this_ch 15) 0
            (bin_data ++ [byte_of_Z (Z.lor (Z.shiftl leftchar 2) (Z.shiftr this_ch 4))])
        else if quad_pos =? 2 then
          a2b_base64 rest 3 (Z.land this_ch 3) 0
            (bin_data ++ [byte_of_Z (Z.lor (Z.shiftl leftchar 4) (Z.shiftr this_ch 2))])
        else
          a2b_base64 rest 0 0 0
            (bin_data ++ [byte_of_Z (Z.lor (Z.shiftl leftchar 6) this_ch)])
  end.

Fixpoint is_ascii (s : string) : bool :=
  match s with
  | EmptyString => true
  | String c t => (N_of_ascii c <? 128)%N && is_ascii t
  end.

(** [base64.b64decode(s)] for a [str] argument. *)
Definition b64decode_str (s : string) : exn + list byte :=
  if is_ascii s then a2b_base64 s 0 0 0 []
  else inl (Exn ValueErrorC "string argument should contain only ASCII characters").

(** [base64.b64decode(v)] for any JSON value: what is neither a [str]
    nor bytes-like is refused with a [TypeError]. *)
Definition b64decode (v : json) : exn + list byte :=
  match v with
  | JStr s => b64decode_str s
  | _ => inl (Exn TypeErrorC
                ("argument should be a bytes-like object or ASCII string, not '"
                 +:+ type_name v +:+ "'"))
  end.

End Base64.

(** ** Files, the environment and the world *)

(** The name of a temporary file: a unique stem and the suffix asked for. *)
Record path := Path { stem : positive; suffix : string }.

Global Instance path_eq_dec : EqDecision path.
Proof. solve_decision. Defined.

Global Instance path_countable : Countable path :=
  inj_countable' (fun p => (stem p, suffix p)) (fun q => Path q.1 q.2)
    ltac:(by intros []).

(** The file system: the content of every file, by name. *)
Abbreviation filesystem := (gmap path (list byte)).

(** The name as passed on a command line. *)
Definition path_str (p : path) : string :=
  "/tmp/tmp" +:+ pretty (Zpos (stem p)) +:+ suffix p.

(** What [subprocess.run(cmd, capture_output=True, text=True)] does: the
    binary is not found ([FileNotFoundError]); or the process runs, exits
    with the status [rc], writes the text [err] to its standard error and
    leaves the file system as [fs_after]; or the call raises another
    exception [e], the file system being left as [fs_after]:
    [PermissionError] when the binary cannot be executed (no process, so
    [exited] is [None]), [UnicodeDecodeError] when the process has run
    and exited with the status [rc] ([exited] is [Some rc]) and what it
    wrote to its standard output or error is not valid UTF-8. *)
Inductive run_outcome :=
| RunNotFound
| RunCompleted (rc : Z) (err : string) (fs_after : filesystem)
| RunRaises (e : exn) (exited : option Z) (fs_after : filesystem).

(** The [CompletedProcess] that [subprocess.run] returns. *)
Record completed_process := CompletedProcess { returncode : Z; stderr : string }.

(** What [requests.post] sends. *)
Inductive post_body :=
| Multipart (files : gmap string (list byte)) (data : gmap string string)
| JsonBody (payload : json).

(** A [requests.Response]: [resp_json] is what [response.json()] does,
    raise or return the parsed body. *)
Record http_response := HttpResponse {
  status_code : Z;
  reason : string;
  resp_json : exn + json
}.

(** [requests.post] raises (no connection) or returns a response. *)
Inductive post_outcome :=
| PostRaises (e : exn)
| PostReturns (r : http_response).

Record env := Env {
  subprocess_run : list string -> filesystem -> run_outcome;
  requests_post : string -> post_body -> post_outcome;
  unlink_denied : path -> bool
}.

Inductive event :=
| EvCreate (p : path)
| EvWrite (p : path) (content : list byte)
| EvRun (cmd : list string) (fs_before : filesystem) (o : run_outcome)
| EvPost (url : string) (body : post_body) (o : post_outcome)
| EvUnlink (p : path) (ok : bool)
| EvWriteFailed (p : path) (kept : list byte).

(** What the storage refuses.  [create_fault sfx] is the exception raised
    when a temporary file with the suffix [sfx] cannot be created;
    [write_fault p content] is the exception raised when [content] cannot
    be written to [p] (no space left on the device, an upload stream that
    breaks), with what the file holds afterwards. *)
Record faults := Faults {
  create_fault : string -> option exn;
  write_fault : path -> list byte -> option (exn * list byte)
}.

Definition no_faults : faults := Faults (fun _ => None) (fun _ _ => None).

Record world := MkWorld {
  w_fs : filesystem;
  w_trace : list event;
  w_faults : faults
}.

(** A world whose storage refuses nothing. *)
Abbreviation World fs tr := (MkWorld fs tr no_faults).

(** The world at the start of a request, on storage that refuses nothing. *)
Definition init (fs : filesystem) : world := World fs [].

Definition log (e : event) (w : world) : world :=
  MkWorld (w_fs w) (w_trace w ++ [e]) (w_faults w).

(** ** The monad of the handlers: state and exceptions *)

Definition M (A : Type) : Type := world -> (exn + A) * world.

Definition ret {A} (a : A) : M A := fun w => (inr a, w).

Definition raise {A} (e : exn) : M A := fun w => (inl e, w).

Definition bind {A B} (m : M A) (k : A -> M B) : M B :=
  fun w =>
    match m w with
    | (inr a, w') => k a w'
    | (inl e, w') => (inl e, w')
    end.

Notation "'let*' x ':=' m 'in' k" := (bind m (fun x => k))
  (at level 10, x name, m at level 100, k at level 200).
Notation "'do*' m 'in' k" := (bind m (fun _ => k))
  (at level 10, m at level 100, k at level 200).

(** A pure computation that may raise. *)
Definition lift {A} (r : exn + A) : M A := fun w => (r, w).

(** [try: m  except Exception as e: h e] *)
Definition try_except {A} (m : M A) (h : exn -> M A) : M A :=
  fun w =>
    match m w with
    | (inr a, w') => (inr a, w')
    | (inl e, w') => h e w'
    end.

(** [try: x = alloc; body x  finally: fin x].  The [finally] block reads
    a variable that the [try] block assigns; it is unbound ([None]) when
    the assignment itself raised.  An exception of [fin] replaces the
    outcome of the body. *)
Definition try_finally {X A} (alloc : M X) (body : X -> M A)
    (fin : option X -> M unit) : M A :=
  fun w =>
    match alloc w with
    | (inl e, w1) =>
        match fin None w1 with
        | (inr _, w2) => (inl e, w2)
        | (inl e', w2) => (inl e', w2)
        end
    | (inr x, w1) =>
        match body x w1 with
        | (r, w2) =>
            match fin (Some x) w2 with
            | (inr _, w3) => (r, w3)
            | (inl e', w3) => (inl e', w3)
            end
        end
    end.

(** ** System calls *)

Definition stems (fs : filesystem) : gset positive :=
  set_map stem (dom fs).

(** The name given to the next temporary file: its stem is used by no
    file of [fs]. *)
Definition tmp_path (fs : filesystem) (sfx : string) : path :=
  Path (fresh (stems fs)) sfx.

(** [tempfile.NamedTemporaryFile(delete=False, suffix=sfx)], closed at
    the end of its [with] block: a new empty file under a fresh name. *)
Definition NamedTemporaryFile (sfx : string) : M path :=
  fun w =>
    match create_fault (w_faults w) sfx with
    | Some e => (inl e, w)
    | None =>
        let p := tmp_path (w_fs w) sfx in
        (inr p,
         MkWorld (<[p := []]> (w_fs w)) (w_trace w ++ [EvCreate p]) (w_faults w))
    end.

(** [audio_file.save(name)] and [tmp_input.write(bytes)], the file being
    closed at the end of its [with] block whether the call raised or
    not. *)
Definition write_file (p : path) (content : list byte) : M unit :=
  fun w =>
    match write_fault (w_faults w) p content with
    | Some (e, kept) =>
        (inl e,
         MkWorld (<[p := kept]> (w_fs w)) (w_trace w ++ [EvWriteFailed p kept])
                 (w_faults w))
    | None =>
        (inr tt,
         MkWorld (<[p := content]> (w_fs w)) (w_trace w ++ [EvWrite p content])
                 (w_faults w))
    end.

Definition no_such_file (p : path) : exn :=
  Exn FileNotFoundErrorC
    ("[Errno 2] No such file or directory: '" +:+ path_str p +:+ "'").

(** [os.path.exists(p)] *)
Definition path_exists (p : path) : M bool :=
  fun w => (inr (bool_decide (is_Some (w_fs w !! p))), w).

(** [os.path.getsize(p)] *)
Definition getsize (p : path) : M nat :=
  fun w =>
    match w_fs w !! p with
    | Some content => (inr (length content), w)
    | None => (inl (no_such_file p), w)
    end.

(** [open(p, 'rb')], read in full by the caller. *)
Definition open_rb (p : path) : M (list byte) :=
  fun w =>
    match w_fs w !! p with
    | Some content => (inr content, w)
    | None => (inl (no_such_file p), w)
    end.

(** [os.unlink(p)] *)
Definition os_unlink (E : env) (p : path) : M unit :=
  fun w =>
    match w_fs w !! p with
    | None => (inl (no_such_file p), log (EvUnlink p false) w)
    | Some _ =>
        if unlink_denied E p
        then (inl (Exn PermissionErrorC
                     ("[Errno 13] Permission denied: '" +:+ path_str p +:+ "'")),
              log (EvUnlink p false) w)
        else (inr tt,
              MkWorld (delete p (w_fs w)) (w_trace w ++ [EvUnlink p true]) (w_faults w))
    end.

(** [subprocess.run(cmd, capture_output=True, text=True)] *)
Definition run (E : env) (cmd : list string) : M completed_process :=
  fun w =>
    let o := subprocess_run E cmd (w_fs w) in
    match o with
    | RunNotFound =>
        (inl (Exn FileNotFoundErrorC
                "[Errno 2] No such file or directory: 'ffmpeg'"),
         log (EvRun cmd (w_fs w) o) w)
    | RunCompleted rc err fs' =>
        (inr (CompletedProcess rc err),
         MkWorld fs' (w_trace w ++ [EvRun cmd (w_fs w) o]) (w_faults w))
    | RunRaises e _ fs' =>
        (inl e, MkWorld fs' (w_trace w ++ [EvRun cmd (w_fs w) o]) (w_faults w))
    end.

(** [requests.post(url, ...)] *)
Definition post (E : env) (url : string) (body : post_body) : M http_response :=
  fun w =>
    let o := requests_post E url body in
    (match o with PostRaises e => inl e | PostReturns r => inr r end,
     log (EvPost url body o) w).

(** [response.raise_for_status()]: an [HTTPError] for the status codes
    400 to 599, nothing for any other code. *)
Definition raise_for_status (url : string) (r : http_response) : exn + unit :=
  if (400 <=? status_code r) && (status_code r <? 500) then
    inl (Exn HTTPErrorC
           (pretty (status_code r) +:+ " Client Error: " +:+ reason r
            +:+ " for url: " +:+ url))
  else if (500 <=? status_code r) && (status_code r <? 600) then
    inl (Exn HTTPErrorC
           (pretty (status_code r) +:+ " Server Error: " +:+ reason r
            +:+ " for url: " +:+ url))
  else inr tt.

(** ** The request and the response *)

(** A [FileStorage] of [request.files]. *)
Record upload := Upload { filename : string; content : list byte }.

(** The Flask request as the handlers read it.  [get_json] is the
    outcome of [request.get_json()], which the handlers call without
    [silent=True]: on a body that does not parse it raises [BadRequest];
    on the body [null] it returns [None], here [JNull]. *)
Record request := Request {
  content_type : option string;
  files : gmap string upload;
  get_json : exn + json
}.

(** A handler returns [jsonify(body), status]. *)
Definition response : Type := json * Z.

Definition error_body (msg : string) : json := JObj {[ "error" := JStr msg ]}.

(** [request.content_type and kind in request.content_type] *)
Definition content_type_has (kind : string) (req : request) : bool :=
  match content_type req with
  | None => false
  | Some ct => negb (String.eqb ct "") && str_in kind ct
  end.

(** ** src/server.py *)

Definition WHISPER_URL : string := "http://127.0.0.1:8100/inference".
Definition OLLAMA_URL : string := "http://localhost:11434/api/generate".

(** Lines 18-25: the command line of the conversion. *)
Definition ffmpeg_cmd (input_file output_path : path) : list string :=
  [ "ffmpeg"; "-i"; path_str input_file;
    "-ar"; "16000";
    "-ac"; "1";
    "-c:a"; "pcm_s16le";
    "-af"; "highpass=f=80,lowpass=f=8000";
    "-y"; path_str output_path ].

(** Lines 14-45. *)
Definition convert_audio_to_wav (E : env) (input_file output_path : path) : M bool :=
  try_except
    (let* result := run E (ffmpeg_cmd input_file output_path) in
     if negb (returncode result =? 0) then
       raise (Exn ExceptionC ("FFmpeg conversion failed: " +:+ stderr result))
     else
       let* present := path_exists output_path in
       let* no_output :=
         (if negb present then ret true
          else let* size := getsize output_path in ret (Nat.eqb size 0)) in
       if (no_output : bool) then
         raise (Exn ExceptionC "Converted file is empty or doesn't exist")
       else
         let* file_size := getsize output_path in
         ret true)
    (fun e =>
       if decide (exn_class_of e = FileNotFoundErrorC) then
         raise (Exn ExceptionC "FFmpeg not found. Install it with: apt install ffmpeg")
       else
         raise (Exn ExceptionC ("Audio conversion failed: " +:+ str_exn e))).

(** Lines 72-74 and 160-163: [not data or key not in data]. *)
Definition missing_key (key : string) (data : json) : exn + bool :=
  if negb (truthy data) then inr true
  else match py_contains key data with
       | inl e => inl e
       | inr present => inr (negb present)
       end.

(** Lines 51-93: the request either ends with a response, or leaves the
    raw input in a temporary file whose name is returned. *)
Definition ingest (req : request) : M (response + path) :=
  if content_type_has "multipart/form-data" req then
    match files req !! "file" with
    | None => ret (inl (error_body "No file provided", 400))
    | Some audio_file =>
        let* tmp_input_path := NamedTemporaryFile ".tmp" in
        do* write_file tmp_input_path (content audio_file) in
        let* input_size := getsize tmp_input_path in
        ret (inr tmp_input_path)
    end
  else if content_type_has "application/json" req then
    let* data := lift (get_json req) in
    let* absent := lift (missing_key "audio_data" data) in
    if (absent : bool) then
      ret (inl (error_body "No audio_data provided in JSON", 400))
    else
      let* audio_data := lift (py_getitem data "audio_data") in
      let* base64_length := lift (py_len audio_data) in
      match Base64.b64decode audio_data with
      | inl e =>
          ret (inl (error_body ("Invalid base64 audio data: " +:+ str_exn e), 400))
      | inr audio_bytes =>
          let* tmp_input_path := NamedTemporaryFile ".aac" in
          do* write_file tmp_input_path audio_bytes in
          ret (inr tmp_input_path)
      end
  else
    ret (inl (error_body
                "Invalid content type. Use multipart/form-data or application/json",
              400)).

(** Lines 103-109: the form posted to the speech-to-text backend. *)
Definition whisper_form (wav : list byte) : post_body :=
  Multipart {[ "file" := wav ]}
            {[ "response_format" := "json"; "language" := ""; "task" := "transcribe" ]}.

(** Lines 118-127. *)
Definition shape_result (result : json) : exn + json :=
  match py_get result "text" (JStr "") with
  | inl e => inl e
  | inr t =>
      match py_strip t with
      | inl e => inl e
      | inr text =>
          match py_get result "language" (JStr "unknown") with
          | inl e => inl e
          | inr language =>
              match py_get result "duration" (JNum 0) with
              | inl e => inl e
              | inr duration =>
                  inr (JObj {[ "status" := JStr "success";
                               "text" := text;
                               "language" := language ]})
              end
          end
      end
  end.

(** Lines 100-135: the body of the inner [try], after the name of the
    converted file is known. *)
Definition transcribe_body (E : env) (tmp_input_path tmp_wav_path : path) : M response :=
  do* convert_audio_to_wav E tmp_input_path tmp_wav_path in
  let* wav_file := open_rb tmp_wav_path in
  let* response := post E WHISPER_URL (whisper_form wav_file) in
  do* lift (raise_for_status WHISPER_URL response) in
  let* result := lift (resp_json response) in
  let* response_data := lift (shape_result result) in
  ret (response_data, 200).

(** Lines 137-144: the [finally] block. *)
Definition cleanup (E : env) (tmp_input_path : path) (tmp_wav_path : option path) : M unit :=
  try_except
    (do* os_unlink E tmp_input_path in
     match tmp_wav_path with
     | Some p => os_unlink E p
     | None =>
         raise (Exn UnboundLocalErrorC
                  "cannot access local variable 'tmp_wav_path' where it is not associated with a value")
     end)
    (fun _ => ret tt).

(** Lines 146-154 and 181-182: the outermost [except Exception as e]. *)
Definition handle (m : M response) (w : world) : response * world :=
  match m w with
  | (inr r, w') => (r, w')
  | (inl e, w') => ((error_body (str_exn e), 500), w')
  end.

(** Lines 47-154. *)
Definition transcribe (E : env) (req : request) : world -> response * world :=
  handle
    (let* r := ingest req in
     match r with
     | inl early => ret early
     | inr tmp_input_path =>
         try_finally (NamedTemporaryFile ".wav")
           (fun tmp_wav_path => transcribe_body E tmp_input_path tmp_wav_path)
           (fun tmp_wav_path => cleanup E tmp_input_path tmp_wav_path)
     end).

(** Lines 156-182. *)
Definition ask_ollama (E : env) (req : request) : world -> response * world :=
  handle
    (let* data := lift (get_json req) in
     let* absent := lift (missing_key "prompt" data) in
     if (absent : bool) then ret (error_body "No prompt provided", 400)
     else
       let* model := lift (py_get data "model" (JStr "llama3.1:8b")) in
       let* prompt := lift (py_getitem data "prompt") in
       let payload := JObj {[ "model" := model;
                              "prompt" := prompt;
                              "stream" := JBool false ]} in
       let* response := post E OLLAMA_URL (JsonBody payload) in
       do* lift (raise_for_status OLLAMA_URL response) in
       let* result := lift (resp_json response) in
       let* answer := lift (py_get result "response" (JStr "")) in
       ret (JObj {[ "status" := JStr "success"; "response" := answer ]}, 200)).

(** Lines 184-187. *)
Definition health (w : world) : response * world :=
  ((JObj {[ "status" := JStr "ok" ]}, 200), w).

(** ** Observations on a trace *)

(** The temporary files created, in order. *)
Definition created (tr : list event) : list path :=
  omap (fun e => match e with EvCreate p => Some p | _ => None end) tr.

(** No call of [os.unlink] raised. *)
Definition deletions_succeed (tr : list event) : bool :=
  forallb (fun e => match e with EvUnlink _ false => false | _ => true end) tr.

(** [os.unlink(p)] raises in [w]: the file is absent, or deletion is refused. *)
Definition unlink_fails (E : env) (p : path) (w : world) : bool :=
  match w_fs w !! p with
  | None => true
  | Some _ => unlink_denied E p
  end.

(** The outcome of lines 113-135 on a backend response. *)
Definition whisper_result (r : http_response) : exn + response :=
  match raise_for_status WHISPER_URL r with
  | inl e => inl e
  | inr _ =>
      match resp_json r with
      | inl e => inl e
      | inr result =>
          match shape_result result with
          | inl e => inl e
          | inr response_data => inr (response_data, 200)
          end
      end
  end.

(** The response the outermost handler makes of an outcome. *)
Definition to_response (r : exn + response) : response :=
  match r with
  | inr resp => resp
  | inl e => (error_body (str_exn e), 500)
  end.

(** The converted file is missing or empty. *)
Definition unusable (fs : filesystem) (p : path) : bool :=
  match fs !! p with
  | Some (_ :: _) => false
  | _ => true
  end.

Definition MSG_NOT_FOUND : string :=
  "FFmpeg not found. Install it with: apt install ffmpeg".
Definition MSG_EMPTY : string :=
  "Audio conversion failed: Converted file is empty or doesn't exist".
Definition MSG_FAILED (err : string) : string :=
  "Audio conversion failed: FFmpeg conversion failed: " +:+ err.

(** What the two [except] clauses of lines 42-45 make of an exception
    raised by [subprocess.run]. *)
Definition run_error (e : exn) : exn :=
  if decide (exn_class_of e = FileNotFoundErrorC)
  then Exn ExceptionC MSG_NOT_FOUND
  else Exn ExceptionC ("Audio conversion failed: " +:+ str_exn e).

(** ** Checks used for the base64 round trip *)

Import Base64.

Definition sextets : list Z := map Z.of_nat (seq 0 64).
Definition all_bytes : list byte := map (fun n => byte_of_Z (Z.of_nat n)) (seq 0 256).

Definition sextet_ok (v : Z) : bool :=
  negb (Ascii.eqb (table_b2a_base64 v) BASE64_PAD)
  && (table_a2b_base64 (table_b2a_base64 v) =? v)
  && (N_of_ascii (table_b2a_base64 v) <? 128)%N.

Definition in64 (v : Z) : bool := (0 <=? v) && (v <? 64).

Definition pair_ok (x y : byte) : bool :=
  let a := byte_val x in
  let b := byte_val y in
  in64 (sextet0 a) && in64 (sextet1 a b) && in64 (sextet2 a b) && in64 (sextet3 a)
  && in64 (sextet1 a 0) && in64 (sextet2 a 0)
  && (Z.land (sextet1 a b) 15 =? Z.shiftr b 4)
  && (Z.land (sextet2 a b) 3 =? Z.shiftr b 6)
  && Byte.eqb (byte_of_Z (Z.lor (Z.shiftl (sextet0 a) 2) (Z.shiftr (sextet1 a b) 4))) x
  && Byte.eqb (byte_of_Z (Z.lor (Z.shiftl (sextet0 a) 2) (Z.shiftr (sextet1 a 0) 4))) x
  && Byte.eqb (byte_of_Z (Z.lor (Z.shiftl (Z.shiftr a 4) 4) (Z.shiftr (sextet2 a b) 2))) x
  && Byte.eqb (byte_of_Z (Z.lor (Z.shiftl (Z.shiftr a 4) 4) (Z.shiftr (sextet2 a 0) 2))) x
  && Byte.eqb (byte_of_Z (Z.lor (Z.shiftl (Z.shiftr a 6) 6) (sextet3 a))) x.

(** ** Outcomes of the inner [try] and of the [finally] block *)

(** The three ways the [finally] block can end. *)
Inductive cleanup_result (E : env) (p pw : path) (w : world) : world -> Prop :=
| CleanupFirstFails :
    unlink_fails E p w = true ->
    cleanup_result E p pw w (log (EvUnlink p false) w)
| CleanupSecondFails :
    unlink_fails E p w = false ->
    cleanup_result E p pw w
      (MkWorld (delete p (w_fs w)) (w_trace w ++ [EvUnlink p true; EvUnlink pw false])
               (w_faults w))
| CleanupDone :
    unlink_fails E p w = false ->
    cleanup_result E p pw w
      (MkWorld (delete pw (delete p (w_fs w)))
               (w_trace w ++ [EvUnlink p true; EvUnlink pw true]) (w_faults w)).

(** The world in which the [finally] block starts, and the outcome of
    the inner [try], once the raw input is stored in [p] and the
    converted file is created, on storage that refuses nothing. *)
Definition after_body (E : env) (p pw : path) (fs2 : filesystem)
    (tr2 : list event) : (exn + response) * world :=
  match subprocess_run E (ffmpeg_cmd p pw) fs2 with
  | RunNotFound => (inl (Exn ExceptionC MSG_NOT_FOUND), World fs2 tr2)
  | RunCompleted rc err fs3 =>
      if negb (rc =? 0) then (inl (Exn ExceptionC (MSG_FAILED err)), World fs3 tr2)
      else
        match fs3 !! pw with
        | Some (b :: c) =>
            let o := requests_post E WHISPER_URL (whisper_form (b :: c)) in
            (match o with
             | PostRaises e => inl e
             | PostReturns r => whisper_result r
             end,
             World fs3 (tr2 ++ [EvPost WHISPER_URL (whisper_form (b :: c)) o]))
        | _ => (inl (Exn ExceptionC MSG_EMPTY), World fs3 tr2)
        end
  | RunRaises e _ fs3 => (inl (run_error e), World fs3 tr2)
  end.

(** ** Further observations *)

(** The world [w] on storage that refuses what [F] says. *)
Definition with_faults (F : faults) (w : world) : world :=
  MkWorld (w_fs w) (w_trace w) F.

(** No write to a temporary file was refused. *)
Definition writes_succeed (tr : list event) : bool :=
  forallb (fun e => match e with EvWriteFailed _ _ => false | _ => true end) tr.

(** The requests sent to a backend, in order. *)
Definition posts (tr : list event) : list (string * post_body) :=
  omap (fun e => match e with EvPost url body _ => Some (url, body) | _ => None end) tr.

(** The runs of the external tool, in order. *)
Definition tool_runs (tr : list event) : list (list string) :=
  omap (fun e => match e with EvRun cmd _ _ => Some cmd | _ => None end) tr.

(** The files on which [os.unlink] was called, in order. *)
Definition unlinked (tr : list event) : list path :=
  omap (fun e => match e with EvUnlink p _ => Some p | _ => None end) tr.

(** The request [req] with another outcome of [request.get_json()]. *)
Definition with_json (req : request) (j : exn + json) : request :=
  Request (content_type req) (files req) j.

(** [v] is a [dict]. *)
Definition is_object (v : json) : bool :=
  match v with
  | JObj _ => true
  | _ => false
  end.

(** [v] is a [str]. *)
Definition is_string (v : json) : bool :=
  match v with
  | JStr _ => true
  | _ => false
  end.

(** [v] has no [len()]: it is [None], a [bool] or a number. *)
Definition is_scalar (v : json) : bool :=
  match v with
  | JNull | JBool _ | JNum _ => true
  | _ => false
  end.

(** The characters the decoder looks at: the pad and the 64 characters
    of the alphabet. *)
Definition base64_significant (c : ascii) : bool :=
  Ascii.eqb c BASE64_PAD || (table_a2b_base64 c <? 64).

(** [s] without the characters the decoder skips. *)
Fixpoint keep_significant (s : string) : string :=
  match s with
  | EmptyString => EmptyString
  | String c t =>
      if base64_significant c then String c (keep_significant t)
      else keep_significant t
  end.

Definition starts_with_space (s : string) : bool :=
  match s with
  | EmptyString => false
  | String c _ => is_space c
  end.

Fixpoint ends_with_space (s : string) : bool :=
  match s with
  | EmptyString => false
  | String c EmptyString => is_space c
  | String _ t => ends_with_space t
  end.

(** ** Sample environments and requests *)

(** A conversion tool that succeeds and writes two bytes to every file
    whose suffix is [.wav]. *)
Definition tool_ok (cmd : list string) (fs : filesystem) : run_outcome :=
  RunCompleted 0 ""
    (map_imap (fun p c => Some (if String.eqb (suffix p) ".wav"
                                then ["R"%byte; "I"%byte] else c)) fs).

(** A tool that exits with status 1 and touches nothing. *)
Definition tool_fails (cmd : list string) (fs : filesystem) : run_outcome :=
  RunCompleted 1 "Invalid data found when processing input" fs.

(** A tool that converts its input and exits with status 0, after
    writing a byte to its standard error that is not valid UTF-8:
    [subprocess.run], called with [text=True], raises when it decodes
    the captured output. *)
Definition tool_garbled (cmd : list string) (fs : filesystem) : run_outcome :=
  RunRaises
    (Exn UnicodeDecodeErrorC
       "'utf-8' codec can't decode byte 0xff in position 0: invalid start byte")
    (Some 0)
    (map_imap (fun p c => Some (if String.eqb (suffix p) ".wav"
                                then ["R"%byte; "I"%byte] else c)) fs).

Definition whisper_reply : json :=
  JObj {[ "text" := JStr " hello world "; "language" := JStr "en"; "duration" := JNum 3 ]}.

Definition backend_ok (url : string) (body : post_body) : post_outcome :=
  PostReturns (HttpResponse 200 "OK" (inr whisper_reply)).

(** A backend that answers 300 with a JSON object. *)
Definition backend_300 (url : string) (body : post_body) : post_outcome :=
  PostReturns (HttpResponse 300 "Multiple Choices" (inr (JObj {[ "response" := JStr "x" ]}))).

Definition env_ok : env := Env tool_ok backend_ok (fun _ => false).

(** The raw input cannot be deleted; the converted file can. *)
Definition env_keep_input : env :=
  Env tool_ok backend_ok (fun p => negb (String.eqb (suffix p) ".wav")).

Definition env_tool_fails : env := Env tool_fails backend_ok (fun _ => false).

Definition env_300 : env := Env tool_ok backend_300 (fun _ => false).

Definition env_tool_garbled : env := Env tool_garbled backend_ok (fun _ => false).

(** Storage on which a file can be created and nothing can be written to
    it. *)
Definition disk_full : faults :=
  Faults (fun _ => None)
         (fun _ _ => Some (Exn OSErrorC "[Errno 28] No space left on device", [])).

Definition sample_bytes : list byte := ["a"%byte; "b"%byte].

Definition req_multipart : request :=
  Request (Some "multipart/form-data; boundary=x")
          {[ "file" := Upload "voice.m4a" sample_bytes ]}
          (inl (Exn BadRequestC "400 Bad Request")).

Definition req_json (data : json) : request :=
  Request (Some "application/json") ∅ (inr data).

Definition req_audio (s : string) : request :=
  req_json (JObj {[ "audio_data" := JStr s ]}).

Definition req_no_file : request :=
  Request (Some "multipart/form-data; boundary=x") ∅ (inl (Exn BadRequestC "400 Bad Request")).

(** Storage on which the converted file cannot be created. *)
Definition wav_refused : faults :=
  Faults (fun sfx => if String.eqb sfx ".wav"
                     then Some (Exn OSErrorC "[Errno 24] Too many open files")
                     else None)
         (fun _ _ => None).

(** A backend whose reply has a [text] that is [null]. *)
Definition backend_null_text (url : string) (body : post_body) : post_outcome :=
  PostReturns (HttpResponse 200 "OK" (inr (JObj {[ "text" := JNull ]}))).

Definition env_null_text : env := Env tool_ok backend_null_text (fun _ => false).

(** * Properties *)

Arguments path_str : simpl never.
Arguments Base64.b64decode : simpl never.
Arguments ffmpeg_cmd : simpl never.
Arguments whisper_form : simpl never.
Arguments error_body : simpl never.
Arguments tmp_path : simpl never.

(** ** Temporary names *)

Lemma tmp_path_fresh fs sfx : fs !! tmp_path fs sfx = None.
Proof.
  apply not_elem_of_dom. intros Hin.
  apply (is_fresh (stems fs)). unfold stems.
  apply elem_of_map. by exists (tmp_path fs sfx).
Qed.

Lemma created_app tr1 tr2 : created (tr1 ++ tr2) = created tr1 ++ created tr2.
Proof. apply omap_app. Qed.

Lemma deletions_succeed_app tr1 tr2 :
  deletions_succeed (tr1 ++ tr2) = deletions_succeed tr1 && deletions_succeed tr2.
Proof. apply forallb_app. Qed.

(** ** Ingestion (lines 51-93) *)

Lemma ingest_multipart req w u :
  w_faults w = no_faults ->
  content_type_has "multipart/form-data" req = true ->
  files req !! "file" = Some u ->
  let p := tmp_path (w_fs w) ".tmp" in
  ingest req w =
    (inr (inr p),
     World (<[p := content u]> (w_fs w)) (w_trace w ++ [EvCreate p; EvWrite p (content u)])).
Proof.
  intros Hw Hct Hf p. unfold ingest. rewrite Hct, Hf.
  unfold bind, NamedTemporaryFile, write_file, getsize, ret. rewrite Hw. cbn. fold p.
  by rewrite lookup_insert_eq, insert_insert_eq, <- app_assoc.
Qed.

Lemma ingest_json req w data v n B :
  w_faults w = no_faults ->
  content_type_has "multipart/form-data" req = false ->
  content_type_has "application/json" req = true ->
  get_json req = inr data ->
  missing_key "audio_data" data = inr false ->
  py_getitem data "audio_data" = inr v ->
  py_len v = inr n ->
  Base64.b64decode v = inr B ->
  let p := tmp_path (w_fs w) ".aac" in
  ingest req w =
    (inr (inr p), World (<[p := B]> (w_fs w)) (w_trace w ++ [EvCreate p; EvWrite p B])).
Proof.
  intros Hw Hmp Hjs Hd Hk Hv Hlen HB p. unfold ingest. rewrite Hmp, Hjs.
  unfold bind, lift. rewrite Hd, Hk, Hv.
  rewrite Hlen, HB.
  unfold NamedTemporaryFile, write_file, ret. rewrite Hw. cbn. fold p.
  by rewrite insert_insert_eq, <- app_assoc.
Qed.

(** On storage that refuses nothing, ingestion ends in one of three
    ways; only the last touches the world. *)
Lemma ingest_cases req w :
  w_faults w = no_faults ->
  (exists e, ingest req w = (inl e, w))
  \/ (exists body, ingest req w = (inr (inl (body, 400)), w))
  \/ (exists sfx B,
        (sfx = ".tmp" \/ sfx = ".aac") /\
        ingest req w =
          (inr (inr (tmp_path (w_fs w) sfx)),
           World (<[tmp_path (w_fs w) sfx := B]> (w_fs w))
                 (w_trace w ++ [EvCreate (tmp_path (w_fs w) sfx);
                                EvWrite (tmp_path (w_fs w) sfx) B]))).
Proof.
  intros Hw.
  destruct (content_type_has "multipart/form-data" req) eqn:Hmp.
  - destruct (files req !! "file") as [u|] eqn:Hf.
    + right; right. exists ".tmp", (content u). split; [auto|].
      by apply ingest_multipart.
    + right; left. unfold ingest. rewrite Hmp, Hf. eauto.
  - destruct (content_type_has "application/json" req) eqn:Hjs;
      [|right; left; unfold ingest; rewrite Hmp, Hjs; eauto].
    destruct (get_json req) as [e|data] eqn:Hd;
      [left; unfold ingest, bind, lift; rewrite Hmp, Hjs, Hd; eauto|].
    destruct (missing_key "audio_data" data) as [e|[]] eqn:Hk;
      [left; unfold ingest, bind, lift; rewrite Hmp, Hjs, Hd, Hk; eauto
      |right; left; unfold ingest, bind, lift; rewrite Hmp, Hjs, Hd, Hk; eauto|].
    destruct (py_getitem data "audio_data") as [e|v] eqn:Hv;
      [left; unfold ingest, bind, lift; rewrite Hmp, Hjs, Hd, Hk, Hv; eauto|].
    destruct (py_len v) as [e|n] eqn:Hlen;
      [left; unfold ingest, bind, lift; rewrite Hmp, Hjs, Hd, Hk, Hv, Hlen; eauto|].
    destruct (Base64.b64decode v) as [e|B] eqn:HB;
      [right; left; unfold ingest, bind, lift;
       rewrite Hmp, Hjs, Hd, Hk, Hv, Hlen, HB; eauto|].
    right; right. exists ".aac", B. split; [auto|].
    by apply (ingest_json req w data v n B).
Qed.

(** ** Conversion (lines 14-45) *)

Lemma convert_spec E i o w :
  convert_audio_to_wav E i o w =
    let out := subprocess_run E (ffmpeg_cmd i o) (w_fs w) in
    match out with
    | RunNotFound =>
        (inl (Exn ExceptionC MSG_NOT_FOUND), log (EvRun (ffmpeg_cmd i o) (w_fs w) out) w)
    | RunCompleted rc err fs' =>
        (if negb (rc =? 0) then inl (Exn ExceptionC (MSG_FAILED err))
         else if unusable fs' o then inl (Exn ExceptionC MSG_EMPTY)
         else inr true,
         MkWorld fs' (w_trace w ++ [EvRun (ffmpeg_cmd i o) (w_fs w) out]) (w_faults w))
    | RunRaises e _ fs' =>
        (inl (run_error e),
         MkWorld fs' (w_trace w ++ [EvRun (ffmpeg_cmd i o) (w_fs w) out]) (w_faults w))
    end.
Proof.
  unfold convert_audio_to_wav, try_except, bind, run. cbv zeta.
  destruct (subprocess_run E (ffmpeg_cmd i o) (w_fs w)) as [|rc err fs'|e x fs'];
    [done| |unfold run_error; by destruct (decide _)].
  cbn [returncode stderr]. destruct (negb (rc =? 0)); [done|].
  unfold path_exists, getsize, unusable, ret, raise. cbn.
  destruct (fs' !! o) as [[|b c]|] eqn:Ho; cbn; rewrite ?Ho; cbn; rewrite ?Ho;
    reflexivity.
Qed.

(** ** base64: decoding an encoding gives the bytes back *)

Section Base64Roundtrip.

Lemma in_sextets v : 0 <= v < 64 -> In v sextets.
Proof.
  intros Hv. apply in_map_iff. exists (Z.to_nat v). split; [lia|].
  apply in_seq. lia.
Qed.

Lemma byte_of_Z_val b : byte_of_Z (byte_val b) = b.
Proof.
  unfold byte_of_Z, byte_val.
  pose proof (Byte.to_N_bounded b) as Hb.
  change 255 with (Z.ones 8). rewrite Z.land_ones by lia.
  rewrite Z.mod_small by (change (2 ^ 8) with 256; lia).
  rewrite N2Z.id, Byte.of_to_N. reflexivity.
Qed.

Lemma in_all_bytes b : In b all_bytes.
Proof.
  apply in_map_iff. exists (N.to_nat (Byte.to_N b)). split.
  - rewrite <- (byte_of_Z_val b) at 2. unfold byte_val. f_equal. lia.
  - apply in_seq. pose proof (Byte.to_N_bounded b). lia.
Qed.

Lemma sextet_ok_all v : 0 <= v < 64 -> sextet_ok v = true.
Proof.
  intros Hv. assert (H : forallb sextet_ok sextets = true) by (vm_compute; reflexivity).
  rewrite forallb_forall in H. apply H, in_sextets, Hv.
Qed.

Lemma pair_ok_all x y : pair_ok x y = true.
Proof.
  assert (H : forallb (fun x => forallb (pair_ok x) all_bytes) all_bytes = true)
    by (vm_compute; reflexivity).
  rewrite forallb_forall in H. specialize (H x (in_all_bytes x)).
  rewrite forallb_forall in H. apply H, in_all_bytes.
Qed.

Lemma a2b_data_char v rest q lc p acc :
  0 <= v < 64 ->
  a2b_base64 (String (table_b2a_base64 v) rest) q lc p acc =
    if q =? 0 then a2b_base64 rest 1 v 0 acc
    else if q =? 1 then
      a2b_base64 rest 2 (Z.land v 15) 0
        (acc ++ [byte_of_Z (Z.lor (Z.shiftl lc 2) (Z.shiftr v 4))])
    else if q =? 2 then
      a2b_base64 rest 3 (Z.land v 3) 0
        (acc ++ [byte_of_Z (Z.lor (Z.shiftl lc 4) (Z.shiftr v 2))])
    else a2b_base64 rest 0 0 0 (acc ++ [byte_of_Z (Z.lor (Z.shiftl lc 6) v)]).
Proof.
  intros Hv. pose proof (sextet_ok_all v Hv) as Hok. unfold sextet_ok in Hok.
  apply andb_prop in Hok as [Hok _]. apply andb_prop in Hok as [Hpad Htab].
  apply negb_true_iff in Hpad. apply Z.eqb_eq in Htab.
  cbn [a2b_base64]. rewrite Hpad. cbv zeta. rewrite Htab.
  replace (64 <=? v) with false by (symmetry; apply Z.leb_gt; lia).
  reflexivity.
Qed.

Lemma in64_spec v : in64 v = true -> 0 <= v < 64.
Proof. unfold in64. intros H. apply andb_prop in H as [H1 H2]. lia. Qed.

Lemma byte_eqb_eq (x y : byte) : Byte.eqb x y = true -> x = y.
Proof. apply Byte.byte_dec_bl. Qed.

Ltac split_pair_ok H :=
  repeat match type of H with
         | (_ && _)%bool = true => let H' := fresh "Hp" in apply andb_prop in H as [H H']
         end.

Lemma list_ind3 {A} (P : list A -> Prop) :
  P [] -> (forall a, P [a]) -> (forall a b, P [a; b]) ->
  (forall a b c l, P l -> P (a :: b :: c :: l)) ->
  forall l, P l.
Proof.
  intros H0 H1 H2 H3 l.
  assert (H : P l /\ (forall a, P (a :: l)) /\ (forall a b, P (a :: b :: l))).
  { induction l as [|x l (IH0 & IH1 & IH2)]; [auto|].
    split; [apply IH1|]. split; [intros a; apply IH2|].
    intros a b. apply H3, IH0. }
  apply H.
Qed.

Lemma a2b_group a b c rest acc :
  a2b_base64
    (String (table_b2a_base64 (sextet0 (byte_val a)))
    (String (table_b2a_base64 (sextet1 (byte_val a) (byte_val b)))
    (String (table_b2a_base64 (sextet2 (byte_val b) (byte_val c)))
    (String (table_b2a_base64 (sextet3 (byte_val c))) rest)))) 0 0 0 acc
  = a2b_base64 rest 0 0 0 (acc ++ [a; b; c]).
Proof.
  pose proof (pair_ok_all a b) as Hab. pose proof (pair_ok_all b c) as Hbc.
  pose proof (pair_ok_all c c) as Hcc.
  unfold pair_ok in Hab, Hbc, Hcc. cbv zeta in Hab, Hbc, Hcc.
  split_pair_ok Hab. split_pair_ok Hbc. split_pair_ok Hcc.
  repeat match goal with
         | H : in64 _ = true |- _ => apply in64_spec in H
         | H : Byte.eqb _ _ = true |- _ => apply byte_eqb_eq in H
         | H : (_ =? _) = true |- _ => apply Z.eqb_eq in H
         end.
  rewrite !a2b_data_char by assumption. cbn [Z.eqb].
  rewrite <- !app_assoc. cbn [app].
  repeat f_equal; congruence.
Qed.

Ltac use_pair_ok a b :=
  let H := fresh "Hp" in
  pose proof (pair_ok_all a b) as H; unfold pair_ok in H; cbv zeta in H;
  split_pair_ok H;
  repeat match goal with
         | H : in64 _ = true |- _ => apply in64_spec in H
         | H : Byte.eqb _ _ = true |- _ => apply byte_eqb_eq in H
         | H : (_ =? _) = true |- _ => apply Z.eqb_eq in H
         end.

Lemma a2b_tail1 a acc :
  a2b_base64 (b64encode [a]) 0 0 0 acc = inr (acc ++ [a]).
Proof.
  use_pair_ok a a. cbn [b64encode].
  rewrite !a2b_data_char by assumption. cbn [Z.eqb].
  cbn. repeat f_equal; congruence.
Qed.

Lemma a2b_tail2 a b acc :
  a2b_base64 (b64encode [a; b]) 0 0 0 acc = inr (acc ++ [a; b]).
Proof.
  use_pair_ok a b. use_pair_ok b b. cbn [b64encode].
  rewrite !a2b_data_char by assumption. cbn [Z.eqb].
  cbn. rewrite <- app_assoc. cbn [app]. repeat f_equal; congruence.
Qed.

Lemma a2b_base64_encode B acc :
  a2b_base64 (b64encode B) 0 0 0 acc = inr (acc ++ B).
Proof.
  revert acc. induction B as [|a|a b|a b c l IH] using list_ind3; intros acc.
  - cbn. by rewrite app_nil_r.
  - apply a2b_tail1.
  - apply a2b_tail2.
  - cbn [b64encode]. rewrite a2b_group, IH, <- app_assoc. reflexivity.
Qed.

Lemma is_ascii_encode B : is_ascii (b64encode B) = true.
Proof.
  assert (Hc : forall v, 0 <= v < 64 ->
             (N_of_ascii (table_b2a_base64 v) <? 128)%N = true).
  { intros v Hv. pose proof (sextet_ok_all v Hv) as H. unfold sextet_ok in H.
    by apply andb_prop in H as [_ H]. }
  induction B as [|a|a b|a b c l IH] using list_ind3.
  - reflexivity.
  - use_pair_ok a a. cbn [b64encode is_ascii]. rewrite !Hc by assumption. reflexivity.
  - use_pair_ok a b. use_pair_ok b b. cbn [b64encode is_ascii].
    rewrite !Hc by assumption. reflexivity.
  - use_pair_ok a b. use_pair_ok b c. use_pair_ok c c. cbn [b64encode is_ascii].
    rewrite !Hc by assumption. exact IH.
Qed.

Lemma b64decode_b64encode B : b64decode (JStr (b64encode B)) = inr B.
Proof.
  unfold b64decode, b64decode_str. rewrite is_ascii_encode.
  apply (a2b_base64_encode B []).
Qed.

End Base64Roundtrip.

(** ** Cleanup (lines 137-144) *)

Lemma os_unlink_fails E p w :
  unlink_fails E p w = true ->
  exists e, os_unlink E p w = (inl e, log (EvUnlink p false) w).
Proof.
  unfold unlink_fails, os_unlink. intros H.
  destruct (w_fs w !! p); [rewrite H|]; eauto.
Qed.

Lemma os_unlink_ok E p w :
  unlink_fails E p w = false ->
  os_unlink E p w =
    (inr tt, MkWorld (delete p (w_fs w)) (w_trace w ++ [EvUnlink p true]) (w_faults w)).
Proof.
  unfold unlink_fails, os_unlink. intros H.
  destruct (w_fs w !! p); [by rewrite H|done].
Qed.

Lemma cleanup_never_raises E p o w : (cleanup E p o w).1 = inr tt.
Proof.
  unfold cleanup, try_except, bind.
  destruct (os_unlink E p w) as [[e|[]] w1]; [done|].
  destruct o as [pw|]; [|done].
  by destruct (os_unlink E pw w1) as [[e|[]] w2].
Qed.

Lemma cleanup_first_fails E p pw w :
  unlink_fails E p w = true ->
  cleanup E p (Some pw) w = (inr tt, log (EvUnlink p false) w).
Proof.
  intros H. destruct (os_unlink_fails E p w H) as [e He].
  unfold cleanup, try_except, bind. by rewrite He.
Qed.

Lemma cleanup_first_ok E p pw w :
  unlink_fails E p w = false ->
  let w1 := MkWorld (delete p (w_fs w)) (w_trace w ++ [EvUnlink p true]) (w_faults w) in
  cleanup E p (Some pw) w =
    (inr tt,
     if unlink_fails E pw w1 then log (EvUnlink pw false) w1
     else MkWorld (delete pw (w_fs w1)) (w_trace w1 ++ [EvUnlink pw true]) (w_faults w)).
Proof.
  intros H w1. unfold cleanup, try_except, bind.
  rewrite (os_unlink_ok E p w H). fold w1.
  destruct (unlink_fails E pw w1) eqn:H1.
  - destruct (os_unlink_fails E pw w1 H1) as [e He]. by rewrite He.
  - by rewrite (os_unlink_ok E pw w1 H1).
Qed.

(** ** The inner [try] (lines 95-135) and the handler *)

Lemma transcribe_body_spec E p pw w :
  transcribe_body E p pw w =
    let out := subprocess_run E (ffmpeg_cmd p pw) (w_fs w) in
    let ev := EvRun (ffmpeg_cmd p pw) (w_fs w) out in
    match out with
    | RunNotFound => (inl (Exn ExceptionC MSG_NOT_FOUND), log ev w)
    | RunRaises e _ fs' =>
        (inl (run_error e), MkWorld fs' (w_trace w ++ [ev]) (w_faults w))
    | RunCompleted rc err fs' =>
        let w1 := MkWorld fs' (w_trace w ++ [ev]) (w_faults w) in
        if negb (rc =? 0) then (inl (Exn ExceptionC (MSG_FAILED err)), w1)
        else
          match fs' !! pw with
          | Some (b :: c) =>
              let o := requests_post E WHISPER_URL (whisper_form (b :: c)) in
              (match o with
               | PostRaises e => inl e
               | PostReturns r => whisper_result r
               end,
               log (EvPost WHISPER_URL (whisper_form (b :: c)) o) w1)
          | _ => (inl (Exn ExceptionC MSG_EMPTY), w1)
          end
    end.
Proof.
  unfold transcribe_body, bind at 1. rewrite convert_spec. cbv zeta.
  destruct (subprocess_run E (ffmpeg_cmd p pw) (w_fs w)) as [|rc err fs'|e x fs'];
    [done| |done].
  destruct (negb (rc =? 0)); [done|].
  unfold unusable. destruct (fs' !! pw) as [[|b c]|] eqn:Hpw; try done.
  unfold bind, open_rb, post, lift, ret, whisper_result. cbn. rewrite Hpw.
  destruct (requests_post E WHISPER_URL (whisper_form (b :: c))) as [e|r]; [done|].
  destruct (raise_for_status WHISPER_URL r) as [e|[]]; [done|].
  destruct (resp_json r) as [e|result]; [done|].
  by destruct (shape_result result).
Qed.

Lemma transcribe_spec E req w :
  transcribe E req w =
    match ingest req w with
    | (inr (inr p), w1) =>
        match create_fault (w_faults w1) ".wav" with
        | Some e => ((error_body (str_exn e), 500), (cleanup E p None w1).2)
        | None =>
            let pw := tmp_path (w_fs w1) ".wav" in
            let w2 := MkWorld (<[pw := []]> (w_fs w1)) (w_trace w1 ++ [EvCreate pw])
                              (w_faults w1) in
            let r := transcribe_body E p pw w2 in
            (to_response r.1, (cleanup E p (Some pw) r.2).2)
        end
    | (inr (inl early), w1) => (early, w1)
    | (inl e, w1) => ((error_body (str_exn e), 500), w1)
    end.
Proof.
  unfold transcribe, handle, bind.
  destruct (ingest req w) as [[e|[early|p]] w1]; try done.
  unfold try_finally, NamedTemporaryFile. cbv zeta.
  destruct (create_fault (w_faults w1) ".wav") as [e|].
  { pose proof (cleanup_never_raises E p None w1) as Hc.
    by destruct (cleanup E p None w1) as [[e'|[]] w4]. }
  destruct (transcribe_body E p _ _) as [r w3]. cbn [fst snd].
  pose proof (cleanup_never_raises E p (Some (tmp_path (w_fs w1) ".wav")) w3) as Hc.
  destruct (cleanup E p _ w3) as [[e|[]] w4]; [done|].
  by destruct r.
Qed.

Lemma cleanup_cases E p pw w : cleanup_result E p pw w (cleanup E p (Some pw) w).2.
Proof.
  destruct (unlink_fails E p w) eqn:H1.
  - rewrite (cleanup_first_fails E p pw w H1). by apply CleanupFirstFails.
  - rewrite (cleanup_first_ok E p pw w H1). cbv zeta. cbn [snd].
    destruct (unlink_fails E pw _); unfold log; cbn [w_fs w_trace w_faults];
      rewrite <- app_assoc; cbn [app]; by constructor.
Qed.

Lemma transcribe_stored E req w sfx B :
  let p := tmp_path (w_fs w) sfx in
  let fs1 := <[p := B]> (w_fs w) in
  let pw := tmp_path fs1 ".wav" in
  let fs2 := <[pw := []]> fs1 in
  let out := subprocess_run E (ffmpeg_cmd p pw) fs2 in
  let tr2 := w_trace w ++ [EvCreate p; EvWrite p B; EvCreate pw;
                           EvRun (ffmpeg_cmd p pw) fs2 out] in
  ingest req w = (inr (inr p), World fs1 (w_trace w ++ [EvCreate p; EvWrite p B])) ->
  transcribe E req w =
    (to_response (after_body E p pw fs2 tr2).1,
     (cleanup E p (Some pw) (after_body E p pw fs2 tr2).2).2).
Proof.
  intros p fs1 pw fs2 out tr2 Hin. rewrite transcribe_spec, Hin. cbv zeta.
  cbn [w_fs w_trace w_faults create_fault no_faults]. fold pw fs2.
  rewrite transcribe_body_spec.
  cbn [w_fs w_trace w_faults]. unfold after_body. fold out. unfold log.
  cbn [w_fs w_trace w_faults].
  rewrite <- !app_assoc. cbn [app]. fold tr2.
  destruct out as [|rc err fs3|e x fs3]; [done| |done].
  destruct (negb (rc =? 0)); [done|].
  destruct (fs3 !! pw) as [[|b c]|]; done.
Qed.

Lemma after_body_trace E p pw fs2 tr2 :
  exists evs,
    w_trace (after_body E p pw fs2 tr2).2 = tr2 ++ evs
    /\ created evs = [] /\ deletions_succeed evs = true
    /\ (evs = [] \/ exists body o, evs = [EvPost WHISPER_URL body o]).
Proof.
  unfold after_body.
  destruct (subprocess_run E (ffmpeg_cmd p pw) fs2) as [|rc err fs3|e x fs3];
    [exists []; by rewrite app_nil_r; auto|
    |exists []; by rewrite app_nil_r; auto].
  destruct (negb (rc =? 0)); [exists []; by rewrite app_nil_r; auto|].
  destruct (fs3 !! pw) as [[|b c]|]; try (exists []; by rewrite app_nil_r; auto).
  eexists [_]. cbn. eauto 10.
Qed.

Lemma after_body_env E E' p pw fs2 tr2 :
  subprocess_run E' = subprocess_run E ->
  requests_post E' = requests_post E ->
  after_body E' p pw fs2 tr2 = after_body E p pw fs2 tr2.
Proof. intros H1 H2. unfold after_body. by rewrite H1, H2. Qed.

(** The response does not depend on what [os.unlink] does. *)
Lemma transcribe_response_env E E' req w :
  w_faults w = no_faults ->
  subprocess_run E' = subprocess_run E ->
  requests_post E' = requests_post E ->
  (transcribe E' req w).1 = (transcribe E req w).1.
Proof.
  intros Hw H1 H2.
  destruct (ingest_cases req w Hw) as [[e Hi]|[[body Hi]|(sfx & B & _ & Hi)]].
  - by rewrite !transcribe_spec, Hi.
  - by rewrite !transcribe_spec, Hi.
  - rewrite !(transcribe_stored _ req w sfx B) by exact Hi. cbn [fst].
    by rewrite H1, (after_body_env E E').
Qed.

(** Every event of a run of [transcribe] is one of six, and a run with
    any event at all went through the inner [try]. *)
Lemma transcribe_inv E req fs ev :
  In ev (w_trace (transcribe E req (init fs)).2) ->
  exists sfx B,
    let p := tmp_path fs sfx in
    let fs1 := <[p := B]> fs in
    let pw := tmp_path fs1 ".wav" in
    let fs2 := <[pw := []]> fs1 in
    let out := subprocess_run E (ffmpeg_cmd p pw) fs2 in
    let tr2 := [EvCreate p; EvWrite p B; EvCreate pw; EvRun (ffmpeg_cmd p pw) fs2 out] in
    (sfx = ".tmp" \/ sfx = ".aac")
    /\ ingest req (init fs) = (inr (inr p), World fs1 [EvCreate p; EvWrite p B])
    /\ (transcribe E req (init fs)).1 = to_response (after_body E p pw fs2 tr2).1
    /\ (ev = EvCreate p \/ ev = EvWrite p B \/ ev = EvCreate pw
        \/ ev = EvRun (ffmpeg_cmd p pw) fs2 out
        \/ (exists q ok, ev = EvUnlink q ok)
        \/ (exists b c fs3 err,
              out = RunCompleted 0 err fs3 /\ fs3 !! pw = Some (b :: c)
              /\ ev = EvPost WHISPER_URL (whisper_form (b :: c))
                        (requests_post E WHISPER_URL (whisper_form (b :: c))))).
Proof.
  destruct (ingest_cases req (init fs) eq_refl) as [[e Hi]|[[body Hi]|(sfx & B & Hsfx & Hi)]].
  - rewrite transcribe_spec, Hi. cbn. tauto.
  - rewrite transcribe_spec, Hi. cbn. tauto.
  - rewrite (transcribe_stored E req (init fs) sfx B) by exact Hi.
    cbn [fst snd w_fs w_trace init app]. intros Hin.
    exists sfx, B. cbv zeta. split; [exact Hsfx|]. split; [exact Hi|].
    split; [reflexivity|].
    revert Hin.
    set (p := tmp_path fs sfx). set (fs1 := <[p:=B]> fs).
    set (pw := tmp_path fs1 ".wav"). set (fs2 := <[pw:=[]]> fs1).
    set (out := subprocess_run E (ffmpeg_cmd p pw) fs2).
    set (tr2 := [_; _; _; _]).
    assert (Hbody : forall e', In e' (w_trace (after_body E p pw fs2 tr2).2) ->
              In e' tr2 \/
              exists b c fs3 err,
                out = RunCompleted 0 err fs3 /\ fs3 !! pw = Some (b :: c)
                /\ e' = EvPost WHISPER_URL (whisper_form (b :: c))
                          (requests_post E WHISPER_URL (whisper_form (b :: c)))).
    { intros e'. unfold after_body. fold out.
      destruct out as [|rc err fs3|e x fs3] eqn:Hout;
        [cbn [snd w_trace]; auto| |cbn [snd w_trace]; auto].
      destruct (Z.eqb_spec rc 0) as [->|Hrc]; cbn [negb]; [|cbn [snd w_trace]; auto].
      destruct (fs3 !! pw) as [[|b c]|] eqn:Hpw; cbn [snd w_trace]; auto.
      rewrite in_app_iff. intros [H|[<-|[]]]; [auto|].
      right. by exists b, c, fs3, err. }
    assert (Hall : In ev (w_trace (after_body E p pw fs2 tr2).2)
                   \/ (exists q ok, ev = EvUnlink q ok) ->
            ev = EvCreate p \/ ev = EvWrite p B \/ ev = EvCreate pw
            \/ ev = EvRun (ffmpeg_cmd p pw) fs2 out
            \/ (exists q ok, ev = EvUnlink q ok)
            \/ (exists b c fs3 err,
                  out = RunCompleted 0 err fs3 /\ fs3 !! pw = Some (b :: c)
                  /\ ev = EvPost WHISPER_URL (whisper_form (b :: c))
                            (requests_post E WHISPER_URL (whisper_form (b :: c))))).
    { intros [H|H]; [|tauto].
      destruct (Hbody ev H) as [Htr|Hpost]; [|tauto].
      cbn in Htr. intuition eauto. }
    intros Hin. apply Hall.
    destruct (cleanup_cases E p pw (after_body E p pw fs2 tr2).2) as [Hf|Hf|Hf];
      unfold log in Hin; cbn [w_trace] in Hin;
      apply in_app_iff in Hin as [Hin|Hin]; auto;
      right; cbn in Hin; intuition eauto.
Qed.

(** The events of a run that stored the raw input: four fixed ones, then
    the request to the backend if the conversion succeeded, then the
    deletions. *)
Lemma transcribe_stored_trace E req fs sfx B :
  let p := tmp_path fs sfx in
  let fs1 := <[p := B]> fs in
  let pw := tmp_path fs1 ".wav" in
  let fs2 := <[pw := []]> fs1 in
  let out := subprocess_run E (ffmpeg_cmd p pw) fs2 in
  ingest req (init fs) = (inr (inr p), World fs1 [EvCreate p; EvWrite p B]) ->
  exists rest,
    w_trace (transcribe E req (init fs)).2 =
      EvCreate p :: EvWrite p B :: EvCreate pw
      :: EvRun (ffmpeg_cmd p pw) fs2 out :: rest
    /\ created (w_trace (transcribe E req (init fs)).2) = [p; pw]
    /\ fs2 !! p = Some B /\ fs2 !! pw = Some [] /\ pw <> p.
Proof.
  intros p fs1 pw fs2 out Hi.
  rewrite (transcribe_stored E req (init fs) sfx B) by exact Hi.
  cbn [fst snd w_fs w_trace init app]. fold p fs1 pw fs2 out.
  set (tr2 := [_; _; _; _]).
  destruct (after_body_trace E p pw fs2 tr2) as (evs & Htr & Hcr & _ & _).
  assert (Hne : pw <> p).
  { intros Heq. pose proof (tmp_path_fresh fs1 ".wav") as Hfr. fold pw in Hfr.
    rewrite Heq in Hfr. unfold fs1 in Hfr. by rewrite lookup_insert_eq in Hfr. }
  assert (Hfs : fs2 !! p = Some B /\ fs2 !! pw = Some [] /\ pw <> p).
  { unfold fs2, fs1. by rewrite lookup_insert_ne, !lookup_insert_eq. }
  destruct (cleanup_cases E p pw (after_body E p pw fs2 tr2).2) as [Hf|Hf|Hf];
    unfold log; cbn [w_fs w_trace]; rewrite Htr;
    (eexists; split; [unfold tr2; cbn [app]; reflexivity|]);
    (split; [|exact Hfs]);
    rewrite !created_app, Hcr; reflexivity.
Qed.

(** ** Reading the backend reply (lines 113-127) *)

Lemma shape_result_inr result b :
  shape_result result = inr b <->
  exists m t,
    result = JObj m /\ default (JStr "") (m !! "text") = JStr t
    /\ b = JObj {[ "status" := JStr "success";
                   "text" := JStr (strip t);
                   "language" := default (JStr "unknown") (m !! "language") ]}.
Proof.
  unfold shape_result. split.
  - destruct result as [| | | | |m]; try discriminate. cbn [py_get].
    destruct (default (JStr "") (m !! "text")) as [| | |t| |] eqn:Ht;
      try discriminate.
    cbn [py_strip]. intros [= <-]. exists m, t. auto.
  - intros (m & t & -> & Ht & ->). cbn [py_get]. by rewrite Ht.
Qed.

Lemma whisper_result_inr r resp :
  whisper_result r = inr resp <->
  ~ (400 <= status_code r < 600)
  /\ exists result b, resp_json r = inr result /\ shape_result result = inr b
                      /\ resp = (b, 200).
Proof.
  unfold whisper_result, raise_for_status. split.
  - destruct (_ && _) eqn:H4; [discriminate|].
    destruct ((500 <=? _) && _) eqn:H5; [discriminate|].
    destruct (resp_json r) as [e|result] eqn:Hj; [discriminate|].
    destruct (shape_result result) as [e|b] eqn:Hs; [discriminate|].
    intros [= <-]. split; [lia|]. exists result, b. auto.
  - intros (Hst & result & b & -> & -> & ->).
    destruct (_ && _) eqn:H4; [lia|].
    destruct ((500 <=? _) && _) eqn:H5; [lia|]. done.
Qed.

(** ** Membership tests on the request body *)

Lemma missing_key_present key m v :
  m !! key = Some v -> missing_key key (JObj m) = inr false.
Proof.
  intros Hk. unfold missing_key. cbn [truthy py_contains].
  rewrite bool_decide_false by (intros ->; by rewrite lookup_empty in Hk).
  cbn [negb]. by rewrite bool_decide_true by (by exists v).
Qed.

Lemma missing_key_absent key data :
  truthy data = false \/ (exists m, data = JObj m /\ m !! key = None) ->
  missing_key key data = inr true.
Proof.
  unfold missing_key. intros [Ht|(m & -> & Hk)]; [by rewrite Ht|].
  destruct (truthy (JObj m)); [|done]. cbn [negb py_contains].
  rewrite bool_decide_false; [done|]. rewrite Hk. by intros [? ?].
Qed.

Lemma ingest_json_str req w m s B :
  w_faults w = no_faults ->
  content_type_has "multipart/form-data" req = false ->
  content_type_has "application/json" req = true ->
  get_json req = inr (JObj m) ->
  m !! "audio_data" = Some (JStr s) ->
  Base64.b64decode_str s = inr B ->
  let p := tmp_path (w_fs w) ".aac" in
  ingest req w =
    (inr (inr p), World (<[p := B]> (w_fs w)) (w_trace w ++ [EvCreate p; EvWrite p B])).
Proof.
  intros Hw Hmp Hjs Hd Hk HB.
  apply (ingest_json req w (JObj m) (JStr s) (String.length s) B); auto.
  - by apply (missing_key_present _ _ (JStr s)).
  - cbn. by rewrite Hk.
Qed.

Lemma after_body_fs E p pw fs2 tr2 :
  w_fs (after_body E p pw fs2 tr2).2 =
    match subprocess_run E (ffmpeg_cmd p pw) fs2 with
    | RunNotFound => fs2
    | RunCompleted _ _ fs3 => fs3
    | RunRaises _ _ fs3 => fs3
    end.
Proof.
  unfold after_body.
  destruct (subprocess_run E (ffmpeg_cmd p pw) fs2) as [|rc err fs3|e x fs3];
    [done| |done].
  destruct (negb (rc =? 0)); [done|]. by destruct (fs3 !! pw) as [[|b c]|].
Qed.

(** ** Scratch artifacts and the exits of the handler *)

(** C1. The raw-input file is created, and written, before the [try]
    whose [finally] deletes the temporary files (lines 64-65 and 88-89
    against 95 and 137).  A multipart upload sent while the storage
    accepts the creation of the file and refuses the write: the handler
    answers 500 with the text of the error, it calls [os.unlink] not
    once, so that no deletion failed, and the file it created is on the
    disk when it returns. *)
Theorem failed_write_leaves_raw_file :
  let run := transcribe env_ok req_multipart (MkWorld ∅ [] disk_full) in
  run.1 = (error_body "[Errno 28] No space left on device", 500)
  /\ w_trace run.2 = [EvCreate (Path 1 ".tmp"); EvWriteFailed (Path 1 ".tmp") []]
  /\ created (w_trace run.2) = [Path 1 ".tmp"]
  /\ deletions_succeed (w_trace run.2) = true
  /\ w_fs run.2 !! Path 1 ".tmp" = Some [].
Proof.
  cbv zeta. repeat split; vm_compute; reflexivity.
Qed.

(** ** The ways in which the Transcoder fails *)

(** The tool is found, converts the input, leaves a non-empty output and
    exits with status 0, and what it wrote to its standard error is not
    valid UTF-8: [subprocess.run] raises when it decodes the captured
    output, the generic handler of line 44 wraps the exception, and
    [convert_audio_to_wav] fails, although none of the three conditions
    holds: the binary was found, and no process completed with a status
    for the function to test. *)
Lemma convert_fails_on_undecodable_output :
  let i := Path 1 ".tmp" in
  let o := Path 2 ".wav" in
  let fs := {[ i := sample_bytes; o := [] ]} in
  let out := subprocess_run env_tool_garbled (ffmpeg_cmd i o) fs in
  let r := (convert_audio_to_wav env_tool_garbled i o (init fs)).1 in
  r = inl (Exn ExceptionC
             ("Audio conversion failed: "
              +:+ "'utf-8' codec can't decode byte 0xff in position 0: invalid start byte"))
  /\ (exists e fs', out = RunRaises e (Some 0) fs'
                    /\ fs' !! o = Some ["R"%byte; "I"%byte])
  /\ ~ ((exists e, r = inl e) <->
          out = RunNotFound
          \/ (exists rc err fs', out = RunCompleted rc err fs' /\ rc <> 0)
          \/ (exists err fs', out = RunCompleted 0 err fs'
                              /\ (fs' !! o = None \/ fs' !! o = Some []))).
Proof.
  cbv zeta.
  assert (Hr : (convert_audio_to_wav env_tool_garbled (Path 1 ".tmp") (Path 2 ".wav")
                  (init {[ Path 1 ".tmp" := sample_bytes; Path 2 ".wav" := [] ]})).1
               = inl (Exn ExceptionC
                        ("Audio conversion failed: "
                         +:+ "'utf-8' codec can't decode byte 0xff in position 0: invalid start byte")))
    by (vm_compute; reflexivity).
  split; [exact Hr|]. split.
  - eexists _, _. split; [reflexivity|]. vm_compute. reflexivity.
  - rewrite Hr. intros [H _].
    destruct H as [H|[(rc & err & fs' & H & _)|(err & fs' & H & _)]];
      [by eexists|discriminate H..].
Qed.

(** C2. [convert_audio_to_wav] raises if and only if [subprocess.run]
    raises, be it [FileNotFoundError] for a binary that is not found or
    any other exception, or the tool exits with a non-zero status, or it
    exits with status zero and the output file is absent or empty.  A
    binary that is not found gives the message with the install hint; any
    other exception of [subprocess.run] gives "Audio conversion failed: "
    followed by its text; a non-zero status gives the captured standard
    error; every failure is of class [Exception]; in all other cases the
    function returns [True]. *)
Theorem convert_audio_to_wav_fails_iff E i o w :
  let out := subprocess_run E (ffmpeg_cmd i o) (w_fs w) in
  let r := (convert_audio_to_wav E i o w).1 in
  ((exists e, r = inl e) <->
     out = RunNotFound
     \/ (exists e x fs', out = RunRaises e x fs')
     \/ (exists rc err fs', out = RunCompleted rc err fs' /\ rc <> 0)
     \/ (exists err fs', out = RunCompleted 0 err fs'
                         /\ (fs' !! o = None \/ fs' !! o = Some [])))
  /\ (out = RunNotFound ->
      r = inl (Exn ExceptionC "FFmpeg not found. Install it with: apt install ffmpeg")
      /\ str_in "Install it with: apt install ffmpeg"
           "FFmpeg not found. Install it with: apt install ffmpeg" = true)
  /\ (forall e x fs', out = RunRaises e x fs' ->
      r = inl (Exn ExceptionC
                 (if decide (exn_class_of e = FileNotFoundErrorC)
                  then "FFmpeg not found. Install it with: apt install ffmpeg"
                  else "Audio conversion failed: " +:+ str_exn e)))
  /\ (forall rc err fs', out = RunCompleted rc err fs' -> rc <> 0 ->
      r = inl (Exn ExceptionC
                 ("Audio conversion failed: FFmpeg conversion failed: " +:+ err)))
  /\ (forall err fs', out = RunCompleted 0 err fs' ->
      fs' !! o = None \/ fs' !! o = Some [] ->
      r = inl (Exn ExceptionC
                 "Audio conversion failed: Converted file is empty or doesn't exist"))
  /\ (forall e, r = inl e -> exn_class_of e = ExceptionC)
  /\ ((forall e, r <> inl e) -> r = inr true).
Proof.
  cbv zeta. rewrite convert_spec. cbv zeta.
  destruct (subprocess_run E (ffmpeg_cmd i o) (w_fs w)) as [|rc err fs'|e x fs'] eqn:Hout;
    cbn [fst].
  - repeat split; intros; simplify_eq; eauto; naive_solver.
  - destruct (Z.eqb_spec rc 0) as [->|Hrc]; cbn [negb].
    + unfold unusable.
      destruct (fs' !! o) as [[|b c]|] eqn:Ho;
        repeat split; intros; simplify_eq; eauto 10; naive_solver.
    + repeat split; intros; simplify_eq; eauto 10; naive_solver.
  - unfold run_error.
    destruct (decide (exn_class_of e = FileNotFoundErrorC)) as [Hc|Hc];
      repeat split; intros; simplify_eq; eauto 10;
      try (destruct (decide _); [done|congruence]);
      try (destruct (decide _); [congruence|done]);
      naive_solver.
Qed.

Lemma convert_audio_to_wav_fails_iff_witness :
  (convert_audio_to_wav env_tool_fails (Path 1 ".tmp") (Path 2 ".wav") (init ∅)).1 =
    inl (Exn ExceptionC
           ("Audio conversion failed: FFmpeg conversion failed: "
            +:+ "Invalid data found when processing input")).
Proof.
  apply (proj1 (proj2 (proj2 (proj2
           (convert_audio_to_wav_fails_iff env_tool_fails
              (Path 1 ".tmp") (Path 2 ".wav") (init ∅)))))
           1 "Invalid data found when processing input" ∅).
  - reflexivity.
  - lia.
Defined.

(** ** Both envelopes store the same bytes *)

(** C3. For every byte buffer [B]: a multipart request that carries [B]
    in its [file] field and a JSON request that carries the base64
    encoding of [B] in [audio_data] both store exactly [B] in the raw
    scratch file, and in both runs the conversion tool is started on that
    file while it holds [B].  The two files are named alike up to the
    suffix, [.tmp] for the upload and [.aac] for the JSON payload. *)
Theorem envelopes_store_identical_bytes E fs B req_mp req_js u m :
  content_type_has "multipart/form-data" req_mp = true ->
  files req_mp !! "file" = Some u ->
  content u = B ->
  content_type_has "multipart/form-data" req_js = false ->
  content_type_has "application/json" req_js = true ->
  get_json req_js = inr (JObj m) ->
  m !! "audio_data" = Some (JStr (Base64.b64encode B)) ->
  let p1 := tmp_path fs ".tmp" in
  let p2 := tmp_path fs ".aac" in
  ingest req_mp (init fs) =
    (inr (inr p1), World (<[p1 := B]> fs) [EvCreate p1; EvWrite p1 B])
  /\ ingest req_js (init fs) =
       (inr (inr p2), World (<[p2 := B]> fs) [EvCreate p2; EvWrite p2 B])
  /\ stem p1 = stem p2 /\ suffix p1 = ".tmp" /\ suffix p2 = ".aac"
  /\ (exists pw fs2 out rest,
        w_trace (transcribe E req_mp (init fs)).2 =
          EvCreate p1 :: EvWrite p1 B :: EvCreate pw
          :: EvRun (ffmpeg_cmd p1 pw) fs2 out :: rest
        /\ fs2 !! p1 = Some B)
  /\ (exists pw fs2 out rest,
        w_trace (transcribe E req_js (init fs)).2 =
          EvCreate p2 :: EvWrite p2 B :: EvCreate pw
          :: EvRun (ffmpeg_cmd p2 pw) fs2 out :: rest
        /\ fs2 !! p2 = Some B).
Proof.
  intros Hmp Hf <- Hmp' Hjs Hd Hk p1 p2.
  assert (H1 : ingest req_mp (init fs) =
    (inr (inr p1), World (<[p1 := content u]> fs) [EvCreate p1; EvWrite p1 (content u)]))
    by apply (ingest_multipart req_mp (init fs) u eq_refl Hmp Hf).
  assert (H2 : ingest req_js (init fs) =
    (inr (inr p2), World (<[p2 := content u]> fs) [EvCreate p2; EvWrite p2 (content u)])).
  { apply (ingest_json_str req_js (init fs) m _ (content u) eq_refl Hmp' Hjs Hd Hk).
    apply (b64decode_b64encode (content u)). }
  split; [exact H1|]. split; [exact H2|]. do 3 (split; [reflexivity|]).
  split.
  - destruct (transcribe_stored_trace E req_mp fs ".tmp" (content u) H1)
      as (rest & Htr & _ & Hp & _ & _). eauto 10.
  - destruct (transcribe_stored_trace E req_js fs ".aac" (content u) H2)
      as (rest & Htr & _ & Hp & _ & _). eauto 10.
Qed.

Lemma envelopes_store_identical_bytes_witness :
  ingest req_multipart (init ∅) =
    (inr (inr (Path 1 ".tmp")),
     World {[ Path 1 ".tmp" := sample_bytes ]}
           [EvCreate (Path 1 ".tmp"); EvWrite (Path 1 ".tmp") sample_bytes])
  /\ ingest (req_audio "YWI=") (init ∅) =
       (inr (inr (Path 1 ".aac")),
        World {[ Path 1 ".aac" := sample_bytes ]}
              [EvCreate (Path 1 ".aac"); EvWrite (Path 1 ".aac") sample_bytes]).
Proof.
  pose proof (envelopes_store_identical_bytes env_ok ∅ sample_bytes
                req_multipart (req_audio "YWI=")
                (Upload "voice.m4a" sample_bytes)
                {[ "audio_data" := JStr "YWI=" ]}
                eq_refl eq_refl eq_refl eq_refl eq_refl eq_refl eq_refl) as H.
  cbv zeta in H. destruct H as (H1 & H2 & _). split; [exact H1|exact H2].
Defined.

(** ** The success response *)

(** C4. Let [result] be the JSON value the speech-to-text backend
    returned during a run of the handler.  If the run is successful
    (status 200), then [result] is an object whose [text], defaulting to
    the empty string, is a string, and the body is exactly
    [{status: "success", text: strip(text), language: result.language or
    "unknown"}]; conversely every such [result], sent with a status that
    [raise_for_status] lets through, makes the run successful with that
    body; the body of a successful run has these three keys only, so
    [duration] is not in it. *)
Theorem transcribe_success_response E req fs form r result :
  In (EvPost WHISPER_URL form (PostReturns r))
     (w_trace (transcribe E req (init fs)).2) ->
  resp_json r = inr result ->
  let resp := (transcribe E req (init fs)).1 in
  (resp.2 = 200 ->
   exists m t,
     result = JObj m /\ default (JStr "") (m !! "text") = JStr t
     /\ resp.1 = JObj {[ "status" := JStr "success";
                         "text" := JStr (strip t);
                         "language" := default (JStr "unknown") (m !! "language") ]})
  /\ (forall m t,
        result = JObj m -> default (JStr "") (m !! "text") = JStr t ->
        ~ (400 <= status_code r < 600) ->
        resp = (JObj {[ "status" := JStr "success";
                        "text" := JStr (strip t);
                        "language" := default (JStr "unknown") (m !! "language") ]},
                200))
  /\ (forall b, resp = (JObj b, 200) ->
        b !! "duration" = None /\ dom b = {[ "status"; "text"; "language" ]}).
Proof.
  intros Hin Hjson. cbv zeta.
  destruct (transcribe_inv E req fs _ Hin) as (sfx & B & _ & _ & Hresp & Hev).
  cbv zeta in Hresp, Hev.
  destruct Hev as [Hev|[Hev|[Hev|[Hev|[(q & ok & Hev)|Hev]]]]]; try discriminate.
  destruct Hev as (b & c & fs3 & err & Hout & Hpw & [= -> Ho]).
  rewrite Hresp. unfold after_body. rewrite Hout. cbn [Z.eqb negb]. rewrite Hpw.
  cbv zeta. rewrite <- Ho. cbn [fst].
  destruct (whisper_result r) as [e|resp] eqn:Hw.
  - assert (Hno : forall x, whisper_result r <> inr x) by congruence.
    cbn [to_response fst snd].
    split; [discriminate|]. split.
    + intros m t -> Ht Hst. exfalso. eapply Hno. apply whisper_result_inr.
      split; [done|]. eexists _, _. split; [done|]. split; [|done].
      apply shape_result_inr. exists m, t. auto.
    + intros b0 Hb. discriminate Hb.
  - apply whisper_result_inr in Hw as (Hst & result' & b0 & Hj' & Hshape & ->).
    rewrite Hjson in Hj'. injection Hj' as <-.
    apply shape_result_inr in Hshape as (m & t & -> & Ht & ->).
    cbn [to_response fst snd]. split; [intros _; exists m, t; auto|]. split.
    + intros m' t' [= <-] Ht' _. rewrite Ht in Ht'. by injection Ht' as <-.
    + intros b1 [= <-]. split; [by simplify_map_eq|].
      rewrite !dom_insert_L, dom_singleton_L. set_solver.
Qed.

Lemma transcribe_success_response_witness :
  (transcribe env_ok req_multipart (init ∅)).1 =
    (JObj {[ "status" := JStr "success";
             "text" := JStr "hello world";
             "language" := JStr "en" ]}, 200).
Proof.
  assert (Hin : In (EvPost WHISPER_URL (whisper_form ["R"%byte; "I"%byte])
                      (PostReturns (HttpResponse 200 "OK" (inr whisper_reply))))
                   (w_trace (transcribe env_ok req_multipart (init ∅)).2)).
  { vm_compute. do 4 right. left. reflexivity. }
  etrans.
  - apply (proj1 (proj2
             (transcribe_success_response env_ok req_multipart ∅ _ _ whisper_reply
                Hin eq_refl))
             {[ "text" := JStr " hello world "; "language" := JStr "en";
                "duration" := JNum 3 ]} " hello world ").
    + reflexivity.
    + reflexivity.
    + cbn. lia.
  - vm_compute. reflexivity.
Defined.

(** ** Requests without the required field *)

(** C5, as amended.  A request whose required field is absent is answered
    with status 400 before anything else happens (the world is left as it
    was: no scratch file, no conversion, no backend call): a multipart
    request without a [file] field with the message "No file provided";
    a JSON request whose parsed body is falsy ([null], [{}], ...) or is an
    object without [audio_data] with the message "No audio_data provided
    in JSON", which contains "No audio_data". *)
Theorem missing_field_rejected E req fs :
  (content_type_has "multipart/form-data" req = true ->
   files req !! "file" = None ->
   transcribe E req (init fs) = ((error_body "No file provided", 400), init fs))
  /\ (content_type_has "multipart/form-data" req = false ->
      content_type_has "application/json" req = true ->
      forall data,
        get_json req = inr data ->
        truthy data = false \/ (exists m, data = JObj m /\ m !! "audio_data" = None) ->
        transcribe E req (init fs) =
          ((error_body "No audio_data provided in JSON", 400), init fs))
  /\ str_in "No file provided" "No file provided" = true
  /\ str_in "No audio_data" "No audio_data provided in JSON" = true.
Proof.
  split; [|split; [|split; reflexivity]].
  - intros Hmp Hf. rewrite transcribe_spec. unfold ingest. by rewrite Hmp, Hf.
  - intros Hmp Hjs data Hd Hab. rewrite transcribe_spec. unfold ingest, bind, lift.
    by rewrite Hmp, Hjs, Hd, (missing_key_absent _ _ Hab).
Qed.

(** A body that [request.get_json()] refuses makes the handler answer
    500, not 400: the [BadRequest] it raises reaches the outermost
    handler. *)
Lemma transcribe_unparsable_json E req fs e :
  content_type_has "multipart/form-data" req = false ->
  content_type_has "application/json" req = true ->
  get_json req = inl e ->
  transcribe E req (init fs) = ((error_body (str_exn e), 500), init fs).
Proof.
  intros Hmp Hjs Hd. rewrite transcribe_spec. unfold ingest, bind, lift.
  by rewrite Hmp, Hjs, Hd.
Qed.

Lemma missing_field_rejected_witness :
  transcribe env_ok req_no_file (init ∅) = ((error_body "No file provided", 400), init ∅)
  /\ transcribe env_ok (req_json JNull) (init ∅) =
       ((error_body "No audio_data provided in JSON", 400), init ∅).
Proof.
  split.
  - apply (proj1 (missing_field_rejected env_ok req_no_file ∅)); reflexivity.
  - apply (proj1 (proj2 (missing_field_rejected env_ok (req_json JNull) ∅))
             eq_refl eq_refl JNull eq_refl).
    left. reflexivity.
Defined.

(** The claim C5 asks for a message containing "no audio_data"; the
    message the handler sends for a JSON body without that field is "No
    audio_data provided in JSON", in which "no audio_data" does not
    occur. *)
Lemma missing_audio_data_wording :
  transcribe env_ok (req_json (JObj ∅)) (init ∅) =
    ((error_body "No audio_data provided in JSON", 400), init ∅)
  /\ str_in "no audio_data" "No audio_data provided in JSON" = false.
Proof.
  split; vm_compute; reflexivity.
Qed.

(** ** Undecodable base64 *)

(** C6. A JSON request whose [audio_data] is a string that
    [base64.b64decode] refuses is answered with status 400 and the
    message "Invalid base64 audio data: " followed by the decoder's
    complaint; the world is left as it was: no file is created and
    nothing is run or sent. *)
Theorem invalid_base64_rejected E req fs m s e :
  content_type_has "multipart/form-data" req = false ->
  content_type_has "application/json" req = true ->
  get_json req = inr (JObj m) ->
  m !! "audio_data" = Some (JStr s) ->
  Base64.b64decode_str s = inl e ->
  transcribe E req (init fs) =
    ((error_body ("Invalid base64 audio data: " +:+ str_exn e), 400), init fs)
  /\ str_in "Invalid base64" ("Invalid base64 audio data: " +:+ str_exn e) = true.
Proof.
  intros Hmp Hjs Hd Hk He. split; [|reflexivity].
  rewrite transcribe_spec. unfold ingest, bind, lift.
  rewrite Hmp, Hjs, Hd, (missing_key_present _ _ _ Hk). cbn [py_getitem].
  rewrite Hk. cbn [py_len]. unfold Base64.b64decode. by rewrite He.
Qed.

Lemma invalid_base64_rejected_witness :
  transcribe env_ok (req_audio "A") (init ∅) =
    ((error_body
        ("Invalid base64 audio data: "
         +:+ "Invalid base64-encoded string: number of data characters (1) cannot be 1 more than a multiple of 4"),
      400),
     init ∅).
Proof.
  apply (proj1 (invalid_base64_rejected env_ok (req_audio "A") ∅
                  {[ "audio_data" := JStr "A" ]} "A"
                  (Exn BinasciiErrorC
                     "Invalid base64-encoded string: number of data characters (1) cannot be 1 more than a multiple of 4")
                  eq_refl eq_refl eq_refl eq_refl eq_refl)).
Defined.

(** ** The language-model route *)

(** C7, as amended.  For a request whose JSON body is an object with a
    [prompt], the handler posts exactly one request, to the language-model
    endpoint, with the body [{model: the request's model or
    "llama3.1:8b", prompt, stream: false}].  A connection failure gives
    500 with its message; a reply with a status from 400 to 599 gives 500
    with the message of the [HTTPError]; a reply with any other status
    whose body is a JSON object gives 200 with [{status: "success",
    response: the reply's response or ""}].  A request whose body is falsy
    or is an object without [prompt] gives 400 and nothing is posted. *)
Theorem ask_ollama_contract E req fs :
  (forall m prompt,
     get_json req = inr (JObj m) -> m !! "prompt" = Some prompt ->
     let payload := JObj {[ "model" := default (JStr "llama3.1:8b") (m !! "model");
                            "prompt" := prompt;
                            "stream" := JBool false ]} in
     let o := requests_post E OLLAMA_URL (JsonBody payload) in
     let run := ask_ollama E req (init fs) in
     run.2 = World fs [EvPost OLLAMA_URL (JsonBody payload) o]
     /\ match o with
        | PostRaises e => run.1 = (error_body (str_exn e), 500)
        | PostReturns r =>
            (400 <= status_code r < 600 ->
             exists msg, raise_for_status OLLAMA_URL r = inl (Exn HTTPErrorC msg)
                         /\ run.1 = (error_body msg, 500))
            /\ (~ (400 <= status_code r < 600) ->
                forall mr, resp_json r = inr (JObj mr) ->
                  run.1 = (JObj {[ "status" := JStr "success";
                                   "response" := default (JStr "") (mr !! "response") ]},
                           200))
        end)
  /\ (forall data,
        get_json req = inr data ->
        truthy data = false \/ (exists m, data = JObj m /\ m !! "prompt" = None) ->
        ask_ollama E req (init fs) = ((error_body "No prompt provided", 400), init fs)).
Proof.
  split.
  - intros m prompt Hd Hk. cbv zeta. unfold ask_ollama, handle, bind, lift.
    rewrite Hd, (missing_key_present _ _ _ Hk). cbn [py_get py_getitem]. rewrite Hk.
    unfold post, log. cbn [w_fs w_trace init app].
    destruct (requests_post E OLLAMA_URL _) as [e|r]; [done|].
    unfold raise_for_status.
    destruct ((400 <=? status_code r) && (status_code r <? 500)) eqn:H4.
    { cbn. split; [done|]. split; [eauto|lia]. }
    destruct ((500 <=? status_code r) && (status_code r <? 600)) eqn:H5.
    { cbn. split; [done|]. split; [eauto|lia]. }
    cbn [fst snd]. split.
    + destruct (resp_json r) as [e|[]]; try done.
      all: try (cbn; destruct (py_get _ _ _); done).
    + split; [lia|]. intros _ mr ->. done.
  - intros data Hd Hab. unfold ask_ollama, handle, bind, lift.
    by rewrite Hd, (missing_key_absent _ _ Hab).
Qed.

Lemma ask_ollama_contract_witness :
  (ask_ollama env_300 (req_json (JObj {[ "prompt" := JStr "hello" ]})) (init ∅)).2 =
    World ∅ [EvPost OLLAMA_URL
               (JsonBody (JObj {[ "model" := JStr "llama3.1:8b";
                                  "prompt" := JStr "hello";
                                  "stream" := JBool false ]}))
               (PostReturns (HttpResponse 300 "Multiple Choices"
                               (inr (JObj {[ "response" := JStr "x" ]}))))].
Proof.
  assert (Hk : ({[ "prompt" := JStr "hello" ]} : gmap string json) !! "prompt"
               = Some (JStr "hello")) by (vm_compute; reflexivity).
  etrans.
  - apply (proj1 (proj1 (ask_ollama_contract env_300
                           (req_json (JObj {[ "prompt" := JStr "hello" ]})) ∅)
                    {[ "prompt" := JStr "hello" ]} (JStr "hello") eq_refl Hk)).
  - vm_compute. reflexivity.
Defined.

(** The claim C7 asks for a 500 whenever the backend status is not 2xx;
    with the status 300 and a JSON object as body, [raise_for_status]
    raises nothing and the handler answers 200. *)
Lemma ask_ollama_status_300_is_success :
  requests_post env_300 OLLAMA_URL
    (JsonBody (JObj {[ "model" := JStr "llama3.1:8b"; "prompt" := JStr "hello";
                       "stream" := JBool false ]})) =
    PostReturns (HttpResponse 300 "Multiple Choices" (inr (JObj {[ "response" := JStr "x" ]})))
  /\ ~ (200 <= 300 < 300)
  /\ (ask_ollama env_300 (req_json (JObj {[ "prompt" := JStr "hello" ]})) (init ∅)).1 =
       (JObj {[ "status" := JStr "success"; "response" := JStr "x" ]}, 200).
Proof.
  split; [reflexivity|]. split; [lia|]. vm_compute. reflexivity.
Qed.

(** ** The two deletions are coupled *)

(** C8. If the deletion of the raw-input file raises, the deletion of
    the converted file is not attempted: the failed call is the only
    [os.unlink] of the run, the file system is left as the conversion
    tool left it, and the response is the one the handler gives when
    the deletions work. *)
Theorem failed_first_deletion_skips_second E req fs p :
  let run := transcribe E req (init fs) in
  head (created (w_trace run.2)) = Some p ->
  In (EvUnlink p false) (w_trace run.2) ->
  (forall q ok, In (EvUnlink q ok) (w_trace run.2) -> q = p /\ ok = false)
  /\ (forall cmd fs0 rc err fs3,
        In (EvRun cmd fs0 (RunCompleted rc err fs3)) (w_trace run.2) ->
        w_fs run.2 = fs3)
  /\ (forall E', subprocess_run E' = subprocess_run E ->
                 requests_post E' = requests_post E ->
                 (transcribe E' req (init fs)).1 = run.1).
Proof.
  cbv zeta. intros Hhd Hin.
  split; [|split; [|intros E' H1 H2; by apply transcribe_response_env]].
  all: destruct (transcribe_inv E req fs _ Hin) as (sfx & B & _ & Hi & _ & _);
    cbv zeta in Hi;
    destruct (transcribe_stored_trace E req fs sfx B Hi) as (_ & _ & Hcr & _ & _ & Hne);
    rewrite Hcr in Hhd; injection Hhd as <-;
    revert Hin; rewrite (transcribe_stored E req (init fs) sfx B) by exact Hi;
    cbn [fst snd w_fs w_trace init app];
    set (p := tmp_path fs sfx) in *; set (fs1 := <[p:=B]> fs) in *;
    set (pw := tmp_path fs1 ".wav") in *; set (fs2 := <[pw:=[]]> fs1) in *;
    set (tr2 := [_; _; _; _]);
    destruct (after_body_trace E p pw fs2 tr2) as (evs & Htr & _ & _ & Hevs);
    pose proof (after_body_fs E p pw fs2 tr2) as Hfs;
    assert (Hno : forall q ok, ~ In (EvUnlink q ok) (tr2 ++ evs))
      by (intros q ok Hq; apply in_app_iff in Hq as [Hq|Hq];
          [cbn in Hq; intuition discriminate
          |destruct Hevs as [->|(body & o & ->)]; cbn in Hq; intuition discriminate]);
    destruct (cleanup_cases E p pw (after_body E p pw fs2 tr2).2) as [Hf|Hf|Hf];
    unfold log; cbn [w_fs w_trace]; rewrite Htr; intros Hin;
    try (apply in_app_iff in Hin as [Hin|Hin];
         [by destruct (Hno _ _ Hin)|cbn in Hin; intuition congruence]).
  - intros q ok Hq. apply in_app_iff in Hq as [Hq|Hq]; [by destruct (Hno _ _ Hq)|].
    cbn in Hq. destruct Hq as [[= <- <-]|[]]. done.
  - intros cmd fs0 rc err fs3 Hrun. rewrite Hfs.
    apply in_app_iff in Hrun as [Hrun|Hrun]; [|cbn in Hrun; intuition discriminate].
    apply in_app_iff in Hrun as [Hrun|Hrun].
    + cbn in Hrun. destruct Hrun as [Hr|[Hr|[Hr|[Hr|[]]]]]; try discriminate.
      injection Hr as _ _ Hout. by rewrite Hout.
    + destruct Hevs as [->|(body & o & ->)]; cbn in Hrun; intuition discriminate.
Qed.

Lemma failed_first_deletion_skips_second_witness :
  let run := transcribe env_keep_input req_multipart (init ∅) in
  run.1.2 = 200
  /\ w_fs run.2 !! Path 2 ".wav" = Some ["R"%byte; "I"%byte]
  /\ (forall q ok, In (EvUnlink q ok) (w_trace run.2) -> q = Path 1 ".tmp" /\ ok = false).
Proof.
  cbv zeta. split; [vm_compute; reflexivity|]. split; [vm_compute; reflexivity|].
  assert (Hhd : head (created (w_trace (transcribe env_keep_input req_multipart (init ∅)).2))
                = Some (Path 1 ".tmp")) by (vm_compute; reflexivity).
  assert (Hin : In (EvUnlink (Path 1 ".tmp") false)
                   (w_trace (transcribe env_keep_input req_multipart (init ∅)).2)).
  { vm_compute. do 5 right. left. reflexivity. }
  apply (proj1 (failed_first_deletion_skips_second env_keep_input req_multipart ∅
                  (Path 1 ".tmp") Hhd Hin)).
Defined.

(** ** How conversion errors are worded *)

(** C9. The Transcoder wraps its errors asymmetrically.  When the tool
    exits with a non-zero status, or leaves a missing or empty output,
    the exception raised inside the [try] block is caught again by the
    generic handler, and the caller of [transcribe] reads a message that
    starts with "Audio conversion failed: "; when the binary is missing,
    the exception raised in the [FileNotFoundError] handler propagates as
    it is, and the message is "FFmpeg not found. Install it with: apt
    install ffmpeg" with no such prefix. *)
Theorem conversion_error_wording E req fs cmd fs0 out :
  In (EvRun cmd fs0 out) (w_trace (transcribe E req (init fs)).2) ->
  let resp := (transcribe E req (init fs)).1 in
  match out with
  | RunNotFound =>
      resp = (error_body "FFmpeg not found. Install it with: apt install ffmpeg", 500)
      /\ String.prefix "Audio conversion failed: "
           "FFmpeg not found. Install it with: apt install ffmpeg" = false
  | RunCompleted rc err fs3 =>
      (rc <> 0 ->
       resp = (error_body ("Audio conversion failed: "
                           +:+ "FFmpeg conversion failed: " +:+ err), 500))
      /\ (rc = 0 ->
          forall pw, In pw (created (w_trace (transcribe E req (init fs)).2)) ->
                     suffix pw = ".wav" ->
                     fs3 !! pw = None \/ fs3 !! pw = Some [] ->
          resp = (error_body ("Audio conversion failed: "
                              +:+ "Converted file is empty or doesn't exist"), 500))
  | RunRaises e _ _ =>
      resp = (error_body
                (if decide (exn_class_of e = FileNotFoundErrorC)
                 then "FFmpeg not found. Install it with: apt install ffmpeg"
                 else "Audio conversion failed: " +:+ str_exn e), 500)
  end
  /\ forall i o w,
       (convert_audio_to_wav E i o w).1 =
         match subprocess_run E (ffmpeg_cmd i o) (w_fs w) with
         | RunNotFound =>
             inl (Exn ExceptionC "FFmpeg not found. Install it with: apt install ffmpeg")
         | RunCompleted rc err fs' =>
             if negb (rc =? 0) then
               inl (Exn ExceptionC ("Audio conversion failed: "
                                    +:+ "FFmpeg conversion failed: " +:+ err))
             else if unusable fs' o then
               inl (Exn ExceptionC ("Audio conversion failed: "
                                    +:+ "Converted file is empty or doesn't exist"))
             else inr true
         | RunRaises e _ _ =>
             inl (Exn ExceptionC
                    (if decide (exn_class_of e = FileNotFoundErrorC)
                     then "FFmpeg not found. Install it with: apt install ffmpeg"
                     else "Audio conversion failed: " +:+ str_exn e))
         end.
Proof.
  intros Hin. cbv zeta. split.
  2:{ intros i o w. rewrite convert_spec. cbv zeta.
      destruct (subprocess_run E (ffmpeg_cmd i o) (w_fs w)) as [|rc err fs'|e x fs'];
        [done| |unfold run_error; cbn [fst]; by destruct (decide _)].
      cbn [fst]. by destruct (negb (rc =? 0)), (unusable fs' o). }
  destruct (transcribe_inv E req fs _ Hin) as (sfx & B & Hsfx & Hi & Hresp & Hev).
  cbv zeta in Hi, Hresp, Hev.
  destruct (transcribe_stored_trace E req fs sfx B Hi) as (rest & Htr & Hcr & _ & _ & _).
  destruct Hev as [Hev|[Hev|[Hev|[Hev|[(q & ok & Hev)|(?&?&?&?&_&_&Hev)]]]]];
    try discriminate.
  injection Hev as _ _ Hout. rewrite Hresp. unfold after_body. rewrite <- Hout.
  destruct out as [|rc err fs3|e x fs3];
    [by split| |unfold run_error; cbn [fst]; by destruct (decide _)].
  destruct (Z.eqb_spec rc 0) as [->|Hrc]; cbn [negb].
  - split; [done|]. intros _ pw Hpw Hsuf Hun.
    rewrite Hcr in Hpw. destruct Hpw as [<-|[<-|[]]].
    { cbn in Hsuf. destruct Hsfx as [->| ->]; discriminate. }
    by destruct Hun as [-> | ->].
  - split; [done|]. intros Hz. by destruct Hrc.
Qed.

Lemma conversion_error_wording_witness :
  (transcribe env_tool_fails req_multipart (init ∅)).1 =
    (error_body ("Audio conversion failed: " +:+ "FFmpeg conversion failed: "
                 +:+ "Invalid data found when processing input"), 500).
Proof.
  assert (Hin : In (EvRun (ffmpeg_cmd (Path 1 ".tmp") (Path 2 ".wav"))
                      {[ Path 1 ".tmp" := sample_bytes; Path 2 ".wav" := [] ]}
                      (RunCompleted 1 "Invalid data found when processing input"
                         {[ Path 1 ".tmp" := sample_bytes; Path 2 ".wav" := [] ]}))
                   (w_trace (transcribe env_tool_fails req_multipart (init ∅)).2)).
  { vm_compute. do 3 right. left. reflexivity. }
  apply (proj1 (proj1 (conversion_error_wording env_tool_fails req_multipart ∅ _ _ _ Hin))).
  lia.
Defined.

(** ** An empty payload is not an input error *)

(** C10. A JSON request whose [audio_data] is the empty string passes
    the Ingestion Decoder: the empty string decodes to no bytes, an empty
    [.aac] scratch file is created, and the conversion tool is started on
    it.  The response is never a 400; when the conversion fails, it is a
    500 carrying the conversion error. *)
Theorem empty_audio_data_accepted E req fs m :
  content_type_has "multipart/form-data" req = false ->
  content_type_has "application/json" req = true ->
  get_json req = inr (JObj m) ->
  m !! "audio_data" = Some (JStr "") ->
  let p := tmp_path fs ".aac" in
  let pw := tmp_path (<[p := []]> fs) ".wav" in
  let fs2 := <[pw := []]> (<[p := []]> fs) in
  let run := transcribe E req (init fs) in
  Base64.b64decode (JStr "") = inr []
  /\ ingest req (init fs) =
       (inr (inr p), World (<[p := []]> fs) [EvCreate p; EvWrite p []])
  /\ (exists rest,
        w_trace run.2 =
          EvCreate p :: EvWrite p [] :: EvCreate pw
          :: EvRun (ffmpeg_cmd p pw) fs2 (subprocess_run E (ffmpeg_cmd p pw) fs2)
          :: rest
        /\ fs2 !! p = Some [])
  /\ (run.1.2 = 200 \/ run.1.2 = 500)
  /\ (forall e,
        (convert_audio_to_wav E p pw
           (World fs2 [EvCreate p; EvWrite p []; EvCreate pw])).1 = inl e ->
        run.1 = (error_body (str_exn e), 500)).
Proof.
  intros Hmp Hjs Hd Hk p pw fs2 run.
  assert (Hdec : Base64.b64decode_str "" = inr []) by reflexivity.
  assert (Hi : ingest req (init fs) =
                 (inr (inr p), World (<[p := []]> fs) [EvCreate p; EvWrite p []]))
    by apply (ingest_json_str req (init fs) m "" [] eq_refl Hmp Hjs Hd Hk Hdec).
  split; [exact Hdec|]. split; [exact Hi|].
  destruct (transcribe_stored_trace E req fs ".aac" [] Hi) as (rest & Htr & _ & Hp & _ & _).
  split; [eauto|].
  unfold run. rewrite transcribe_spec, Hi. cbv zeta.
  cbn [w_fs w_trace w_faults create_fault no_faults app fst snd].
  fold pw fs2. split.
  - rewrite transcribe_body_spec. cbv zeta. cbn [w_fs w_trace w_faults].
    destruct (subprocess_run E (ffmpeg_cmd p pw) fs2) as [|rc err fs3|e x fs3];
      [by right| |by right].
    destruct (negb (rc =? 0)); [by right|].
    destruct (fs3 !! pw) as [[|b c]|]; try by right.
    destruct (requests_post E WHISPER_URL (whisper_form (b :: c))) as [e|r];
      [by right|].
    cbn [fst]. destruct (whisper_result r) as [e|resp] eqn:Hw; [by right|].
    apply whisper_result_inr in Hw as (_ & result & b0 & _ & _ & ->). by left.
  - intros e He. unfold transcribe_body, bind.
    destruct (convert_audio_to_wav E p pw _) as [[e'|ok] w3]; cbn [fst] in *;
      [|discriminate].
    by injection He as ->.
Qed.

Lemma empty_audio_data_accepted_witness :
  (transcribe env_tool_fails (req_audio "") (init ∅)).1 =
    (error_body ("Audio conversion failed: " +:+ "FFmpeg conversion failed: "
                 +:+ "Invalid data found when processing input"), 500).
Proof.
  apply (proj2 (proj2 (proj2 (proj2
           (empty_audio_data_accepted env_tool_fails (req_audio "") ∅
              {[ "audio_data" := JStr "" ]} eq_refl eq_refl eq_refl eq_refl))))
           (Exn ExceptionC
              ("Audio conversion failed: " +:+ "FFmpeg conversion failed: "
               +:+ "Invalid data found when processing input"))).
  vm_compute. reflexivity.
Defined.

(** * Further properties *)

(** ** Runs on storage that may refuse *)

Lemma ingest_outcomes req w :
  (exists r, ingest req w = (r, w)
             /\ match r with
                | inl _ => True
                | inr (inl early) => early.2 = 400
                | inr (inr _) => False
                end)
  \/ (exists sfx B,
        (sfx = ".tmp" \/ sfx = ".aac")
        /\ create_fault (w_faults w) sfx = None
        /\ let p := tmp_path (w_fs w) sfx in
           match write_fault (w_faults w) p B with
           | None =>
               ingest req w =
                 (inr (inr p),
                  MkWorld (<[p := B]> (w_fs w)) (w_trace w ++ [EvCreate p; EvWrite p B])
                          (w_faults w))
           | Some (e, kept) =>
               ingest req w =
                 (inl e,
                  MkWorld (<[p := kept]> (w_fs w))
                          (w_trace w ++ [EvCreate p; EvWriteFailed p kept]) (w_faults w))
           end).
Proof.
  unfold ingest.
  destruct (content_type_has "multipart/form-data" req).
  - destruct (files req !! "file") as [u|]; [|left; by eexists].
    destruct (create_fault (w_faults w) ".tmp") as [e|] eqn:Hc.
    { left. exists (inl e). split; [|done].
      unfold bind, NamedTemporaryFile. cbv beta. by rewrite Hc. }
    right. exists ".tmp", (content u). split; [auto|]. split; [exact Hc|]. cbv zeta.
    unfold bind, NamedTemporaryFile, write_file, getsize, ret. cbv beta. rewrite Hc.
    cbn [w_fs w_trace w_faults].
    destruct (write_fault _ _ _) as [[e kept]|]; cbn [w_fs w_trace w_faults].
    + by rewrite insert_insert_eq, <- app_assoc.
    + by rewrite lookup_insert_eq, insert_insert_eq, <- app_assoc.
  - destruct (content_type_has "application/json" req); [|left; by eexists].
    unfold bind, lift. cbv beta.
    destruct (get_json req) as [e|data]; [left; by eexists|].
    destruct (missing_key "audio_data" data) as [e|[]]; [left; by eexists..|].
    destruct (py_getitem data "audio_data") as [e|v]; [left; by eexists|].
    destruct (py_len v) as [e|n]; [left; by eexists|].
    destruct (Base64.b64decode v) as [e|B]; [left; by eexists|].
    unfold NamedTemporaryFile, write_file, ret. cbv beta.
    destruct (create_fault (w_faults w) ".aac") as [e|] eqn:Hc; [left; by eexists|].
    right. exists ".aac", B. split; [auto|]. split; [exact Hc|]. cbv zeta.
    cbn [w_fs w_trace w_faults].
    destruct (write_fault _ _ _) as [[e kept]|]; cbn [w_fs w_trace w_faults];
      by rewrite insert_insert_eq, <- app_assoc.
Qed.

(** The inner [try] consults no storage fault. *)
Lemma transcribe_body_faults E p pw fs tr F :
  let out := subprocess_run E (ffmpeg_cmd p pw) fs in
  let r := after_body E p pw fs (tr ++ [EvRun (ffmpeg_cmd p pw) fs out]) in
  transcribe_body E p pw (MkWorld fs tr F) = (r.1, with_faults F r.2).
Proof.
  cbv zeta. rewrite transcribe_body_spec. cbv zeta. cbn [w_fs w_trace w_faults].
  unfold after_body, log, with_faults.
  destruct (subprocess_run E (ffmpeg_cmd p pw) fs) as [|rc err fs3|e x fs3];
    [done| |done].
  destruct (negb (rc =? 0)); [done|].
  destruct (fs3 !! pw) as [[|b c]|]; done.
Qed.

(** The [finally] block when the name of the converted file was never
    bound: the raw input is deleted, and the [UnboundLocalError] that
    follows is swallowed with every other exception. *)
Lemma cleanup_unbound E p w :
  (cleanup E p None w).2 =
    if unlink_fails E p w then log (EvUnlink p false) w
    else MkWorld (delete p (w_fs w)) (w_trace w ++ [EvUnlink p true]) (w_faults w).
Proof.
  unfold cleanup, try_except, bind.
  destruct (unlink_fails E p w) eqn:H1.
  - destruct (os_unlink_fails E p w H1) as [e He]. by rewrite He.
  - by rewrite (os_unlink_ok E p w H1).
Qed.

(** The four shapes of a run of [transcribe]: it stops before any effect;
    the write of the raw input is refused; the converted file cannot be
    created; it goes through the inner [try] and the two deletions. *)
Lemma transcribe_runs E req fs F :
  let w := MkWorld fs [] F in
  let run := transcribe E req w in
  (run.2 = w /\ (run.1.2 = 400 \/ run.1.2 = 500))
  \/ exists sfx B,
       (sfx = ".tmp" \/ sfx = ".aac")
       /\ create_fault F sfx = None
       /\ let p := tmp_path fs sfx in
          let fs1 := <[p := B]> fs in
          (exists e kept,
             write_fault F p B = Some (e, kept)
             /\ run = ((error_body (str_exn e), 500),
                       MkWorld (<[p := kept]> fs) [EvCreate p; EvWriteFailed p kept] F))
          \/ (write_fault F p B = None
              /\ ((exists e,
                     create_fault F ".wav" = Some e
                     /\ run.1 = (error_body (str_exn e), 500)
                     /\ run.2 =
                          if unlink_denied E p
                          then MkWorld fs1 [EvCreate p; EvWrite p B; EvUnlink p false] F
                          else MkWorld (delete p fs1)
                                       [EvCreate p; EvWrite p B; EvUnlink p true] F)
                  \/ (create_fault F ".wav" = None
                      /\ let pw := tmp_path fs1 ".wav" in
                         let fs2 := <[pw := []]> fs1 in
                         let out := subprocess_run E (ffmpeg_cmd p pw) fs2 in
                         let tr2 := [EvCreate p; EvWrite p B; EvCreate pw;
                                     EvRun (ffmpeg_cmd p pw) fs2 out] in
                         run.1 = to_response (after_body E p pw fs2 tr2).1
                         /\ cleanup_result E p pw
                              (with_faults F (after_body E p pw fs2 tr2).2) run.2))).
Proof.
  cbv zeta.
  destruct (ingest_outcomes req (MkWorld fs [] F)) as [(r & Hi & Hr)|(sfx & B & Hsfx & Hc & Hi)].
  - left. rewrite transcribe_spec, Hi.
    destruct r as [e|[early|p]]; [by auto|by auto|done].
  - right. exists sfx, B. split; [exact Hsfx|]. split; [exact Hc|].
    cbv zeta in Hi |- *. cbn [w_fs w_trace w_faults app] in Hi.
    set (p := tmp_path fs sfx) in *. set (fs1 := <[p:=B]> fs) in *.
    destruct (write_fault F p B) as [[e kept]|] eqn:Hwf.
    { left. exists e, kept. split; [done|]. by rewrite transcribe_spec, Hi. }
    right. split; [done|]. rewrite transcribe_spec, Hi. cbn [w_fs w_trace w_faults].
    destruct (create_fault F ".wav") as [e|] eqn:Hcw.
    + left. exists e. split; [done|]. split; [done|]. cbn [snd].
      rewrite cleanup_unbound. unfold unlink_fails, log. cbn [w_fs w_trace w_faults app].
      unfold fs1. rewrite lookup_insert_eq. by destruct (unlink_denied E p).
    + right. split; [done|]. cbv zeta.
      set (pw := tmp_path fs1 ".wav"). set (fs2 := <[pw:=[]]> fs1).
      rewrite (transcribe_body_faults E p pw fs2 _ F). cbv zeta. cbn [fst snd app].
      split; [done|]. apply cleanup_cases.
Qed.

Lemma with_faults_trace F w : w_trace (with_faults F w) = w_trace w.
Proof. reflexivity. Qed.

Lemma with_faults_fs F w : w_fs (with_faults F w) = w_fs w.
Proof. reflexivity. Qed.

Lemma writes_succeed_app a b :
  writes_succeed (a ++ b) = writes_succeed a && writes_succeed b.
Proof. apply forallb_app. Qed.

(** ** Scratch artifacts on storage that may refuse *)

(** X1. Whatever the request, the environment and the storage: if no
    call of [os.unlink] raised and no write to a temporary file was
    refused, then every temporary file the handler created is absent
    from the file system when it returns.  This covers the early exits,
    the failure to create the converted file (the raw input is deleted
    before the unbound name stops the [finally] block), and every outcome
    of the conversion and of the backend. *)
Theorem scratch_artifacts_deleted E req fs F :
  let run := transcribe E req (MkWorld fs [] F) in
  deletions_succeed (w_trace run.2) = true ->
  writes_succeed (w_trace run.2) = true ->
  forall p, In p (created (w_trace run.2)) -> w_fs run.2 !! p = None.
Proof.
  cbv zeta.
  destruct (transcribe_runs E req fs F)
    as [[-> _]|(sfx & B & _ & _ & [(e & kept & _ & ->)|[_ [(e & _ & _ & ->)|(_ & _ & Hc)]]])];
    cbv zeta in *.
  - intros _ _ p [].
  - intros _ Hw. discriminate Hw.
  - destruct (unlink_denied E _); [intros Hd; discriminate Hd|].
    cbn. intros _ _ p [<-|[]]. apply lookup_delete_eq.
  - set (p := tmp_path fs sfx) in *. set (fs1 := <[p:=B]> fs) in *.
    set (pw := tmp_path fs1 ".wav") in *. set (fs2 := <[pw:=[]]> fs1) in *.
    set (tr2 := [_; _; _; _]) in *.
    destruct (after_body_trace E p pw fs2 tr2) as (evs & Htr & Hcr & Hdel & _).
    inversion Hc as [Hf Heq|Hf Heq|Hf Heq]; clear Hc;
      unfold log; cbn [w_fs w_trace with_faults]; rewrite Htr.
    + rewrite !deletions_succeed_app. cbn. rewrite !andb_false_r. done.
    + rewrite !deletions_succeed_app. cbn. rewrite !andb_false_r. done.
    + intros _ _ q. rewrite !created_app, Hcr. cbn.
      intros [<-|[<-|[]]].
      * rewrite lookup_delete. case_decide; [done|apply lookup_delete_eq].
      * apply lookup_delete_eq.
Qed.

Lemma scratch_artifacts_deleted_witness :
  let run := transcribe env_ok req_multipart
               (MkWorld ∅ [] wav_refused) in
  run.1.2 = 500
  /\ created (w_trace run.2) = [Path 1 ".tmp"]
  /\ (forall p, In p (created (w_trace run.2)) -> w_fs run.2 !! p = None).
Proof.
  cbv zeta. split; [vm_compute; reflexivity|]. split; [vm_compute; reflexivity|].
  apply (scratch_artifacts_deleted env_ok req_multipart ∅); vm_compute; reflexivity.
Defined.

(** X2. A refused write of the raw input ends the run at once: the
    answer is 500 with the text of the error, the trace holds the
    creation and the refused write and nothing else (no conversion, no
    request to the backend, no [os.unlink]), and the file, which did not
    exist before the request, is on the disk with whatever the write
    left in it. *)
Theorem refused_write_leaves_file E req fs F p kept :
  let run := transcribe E req (MkWorld fs [] F) in
  In (EvWriteFailed p kept) (w_trace run.2) ->
  run.1.2 = 500
  /\ w_trace run.2 = [EvCreate p; EvWriteFailed p kept]
  /\ fs !! p = None
  /\ w_fs run.2 = <[p := kept]> fs.
Proof.
  cbv zeta.
  destruct (transcribe_runs E req fs F)
    as [[-> _]|(sfx & B & _ & _ & [(e & kept' & _ & ->)|[_ [(e & _ & _ & ->)|(_ & _ & Hc)]]])];
    cbv zeta in *.
  - intros [].
  - cbn. intros [H|[H|[]]]; [discriminate|]. injection H as <- <-.
    split; [done|]. split; [done|]. split; [apply tmp_path_fresh|done].
  - destruct (unlink_denied E _); cbn; intros H; exfalso; intuition discriminate.
  - set (p1 := tmp_path fs sfx) in *. set (fs1 := <[p1:=B]> fs) in *.
    set (pw := tmp_path fs1 ".wav") in *. set (fs2 := <[pw:=[]]> fs1) in *.
    set (tr2 := [_; _; _; _]) in *.
    destruct (after_body_trace E p1 pw fs2 tr2) as (evs & Htr & _ & _ & Hevs).
    assert (Hno : ~ In (EvWriteFailed p kept) (tr2 ++ evs)).
    { intros Hq. apply in_app_iff in Hq as [Hq|Hq];
        [cbn in Hq; intuition discriminate
        |destruct Hevs as [->|(body & o & ->)]; cbn in Hq; intuition discriminate]. }
    inversion Hc as [Hf Heq|Hf Heq|Hf Heq]; clear Hc;
      unfold log; cbn [w_fs w_trace with_faults]; rewrite Htr; intros Hin;
      apply in_app_iff in Hin as [Hin|Hin]; try (by destruct Hno);
      cbn in Hin; exfalso; intuition discriminate.
Qed.

Lemma refused_write_leaves_file_witness :
  let run := transcribe env_ok (req_audio "YWI=") (MkWorld ∅ [] disk_full) in
  run.1.2 = 500
  /\ w_trace run.2 = [EvCreate (Path 1 ".aac"); EvWriteFailed (Path 1 ".aac") []]
  /\ (∅ : filesystem) !! Path 1 ".aac" = None
  /\ w_fs run.2 = <[Path 1 ".aac" := []]> ∅.
Proof.
  apply (refused_write_leaves_file env_ok (req_audio "YWI=") ∅ disk_full
           (Path 1 ".aac") []).
  vm_compute. right. left. reflexivity.
Defined.

(** X3. When the converted file cannot be created, the name
    [tmp_wav_path] is never bound.  The answer is 500 with the text of
    that error; the tool is not run and the backend is not called; the
    [finally] block calls [os.unlink] once, on the raw input, and stops
    on the unbound name; when that deletion is not refused, the file
    system is back to what it was before the request. *)
Theorem unbound_wav_path E req fs F e :
  create_fault F ".wav" = Some e ->
  let run := transcribe E req (MkWorld fs [] F) in
  created (w_trace run.2) <> [] ->
  writes_succeed (w_trace run.2) = true ->
  run.1 = (error_body (str_exn e), 500)
  /\ tool_runs (w_trace run.2) = []
  /\ posts (w_trace run.2) = []
  /\ unlinked (w_trace run.2) = created (w_trace run.2)
  /\ (deletions_succeed (w_trace run.2) = true -> w_fs run.2 = fs).
Proof.
  intros He. cbv zeta.
  destruct (transcribe_runs E req fs F)
    as [[-> _]|(sfx & B & _ & _ & [(e1 & kept & _ & ->)|[_ [(e1 & He1 & -> & ->)|(He1 & _)]]])];
    cbv zeta in *.
  - intros H. by destruct H.
  - intros _ Hw. discriminate Hw.
  - rewrite He in He1. injection He1 as <-. intros _ _.
    destruct (unlink_denied E _); cbn; repeat split; try done.
    intros _. apply delete_insert_id, tmp_path_fresh.
  - congruence.
Qed.

Lemma unbound_wav_path_witness :
  let run := transcribe env_ok req_multipart (MkWorld ∅ [] wav_refused) in
  run.1 = (error_body "[Errno 24] Too many open files", 500)
  /\ tool_runs (w_trace run.2) = []
  /\ posts (w_trace run.2) = []
  /\ unlinked (w_trace run.2) = created (w_trace run.2)
  /\ (deletions_succeed (w_trace run.2) = true -> w_fs run.2 = ∅).
Proof.
  apply (unbound_wav_path env_ok req_multipart ∅ wav_refused
           (Exn OSErrorC "[Errno 24] Too many open files")).
  - reflexivity.
  - vm_compute. discriminate.
  - vm_compute. reflexivity.
Defined.

(** ** The calls a run makes *)

Lemma posts_app a b : posts (a ++ b) = posts a ++ posts b.
Proof. apply omap_app. Qed.


Lemma after_body_cases E p pw fs2 tr2 :
  let out := subprocess_run E (ffmpeg_cmd p pw) fs2 in
  let r := after_body E p pw fs2 tr2 in
  (w_trace r.2 = tr2 /\ exists e, r.1 = inl e)
  \/ (exists err fs3 b c,
        out = RunCompleted 0 err fs3 /\ fs3 !! pw = Some (b :: c)
        /\ let o := requests_post E WHISPER_URL (whisper_form (b :: c)) in
           w_trace r.2 = tr2 ++ [EvPost WHISPER_URL (whisper_form (b :: c)) o]
           /\ r.1 = match o with
                    | PostRaises e => inl e
                    | PostReturns resp => whisper_result resp
                    end).
Proof.
  cbv zeta. unfold after_body.
  destruct (subprocess_run E (ffmpeg_cmd p pw) fs2) as [|rc err fs3|e x fs3];
    [left; eauto| |left; eauto].
  destruct (Z.eqb_spec rc 0) as [->|Hrc]; cbn [negb]; [|left; eauto].
  destruct (fs3 !! pw) as [[|b c]|] eqn:Hpw; [left; eauto| |left; eauto].
  right. exists err, fs3, b, c. auto.
Qed.

(** The [finally] block adds calls of [os.unlink] to the trace and
    nothing else. *)
Lemma cleanup_result_trace E p pw w w' :
  cleanup_result E p pw w w' ->
  exists evs,
    w_trace w' = w_trace w ++ evs
    /\ posts evs = [] /\ tool_runs evs = [] /\ created evs = []
    /\ forall ev, In ev evs -> exists q ok, ev = EvUnlink q ok.
Proof.
  intros H. inversion H; subst; unfold log; cbn [w_trace];
    (eexists; split; [reflexivity|]); repeat split; try reflexivity;
    intros ev Hev; cbn in Hev; intuition eauto.
Qed.

(** X4. The status of an answer of [transcribe] is 200, 400 or 500.  A
    400 leaves the world as it was: nothing was created, run or sent.  A
    200 means that exactly one request went to the speech-to-text
    backend and that the reply had a status outside 400..599. *)
Theorem transcribe_status E req fs F :
  let w := MkWorld fs [] F in
  let run := transcribe E req w in
  (run.1.2 = 200 \/ run.1.2 = 400 \/ run.1.2 = 500)
  /\ (run.1.2 = 400 -> run.2 = w)
  /\ (run.1.2 = 200 ->
      exists form r,
        posts (w_trace run.2) = [(WHISPER_URL, form)]
        /\ In (EvPost WHISPER_URL form (PostReturns r)) (w_trace run.2)
        /\ ~ (400 <= status_code r < 600)).
Proof.
  cbv zeta.
  destruct (transcribe_runs E req fs F)
    as [[Hw Hs]|(sfx & B & _ & _ & [(e & kept & _ & ->)|[_ [(e & _ & -> & _)|(_ & Hr & Hc)]]])];
    cbv zeta in *.
  - split; [tauto|]. split; [done|]. intros H2. rewrite H2 in Hs. by destruct Hs.
  - cbn. split; [auto|]. split; discriminate.
  - cbn. split; [auto|]. split; discriminate.
  - set (p := tmp_path fs sfx) in *. set (fs1 := <[p:=B]> fs) in *.
    set (pw := tmp_path fs1 ".wav") in *. set (fs2 := <[pw:=[]]> fs1) in *.
    set (tr2 := [_; _; _; _]) in *. rewrite Hr.
    apply cleanup_result_trace in Hc as (evs & Htr & Hp & _ & _ & _).
    rewrite Htr, with_faults_trace. clear Htr Hr.
    destruct (after_body_cases E p pw fs2 tr2) as [(Ht & e & He)|(err & fs3 & b & c & _ & _ & Ht & He)];
      cbv zeta in *; rewrite He, Ht.
    + cbn. split; [auto|]. split; discriminate.
    + destruct (requests_post E WHISPER_URL (whisper_form (b :: c))) as [e|r] eqn:Ho.
      { cbn. split; [auto|]. split; discriminate. }
      destruct (whisper_result r) as [e|resp] eqn:Hw.
      { cbn. split; [auto|]. split; discriminate. }
      apply whisper_result_inr in Hw as (Hst & result & body & _ & _ & ->).
      cbn [to_response fst snd]. split; [auto|]. split; [discriminate|]. intros _.
      exists (whisper_form (b :: c)), r. split; [|split; [|exact Hst]].
      * rewrite !posts_app, Hp. reflexivity.
      * apply in_app_iff. left. apply in_app_iff. right. by left.
Qed.

Lemma transcribe_status_witness :
  let run := transcribe env_ok req_no_file (init ∅) in
  run.1.2 = 400 /\ run.2 = init ∅.
Proof.
  cbv zeta.
  assert (H4 : (transcribe env_ok req_no_file (init ∅)).1.2 = 400)
    by (vm_compute; reflexivity).
  split; [exact H4|].
  exact (proj1 (proj2 (transcribe_status env_ok req_no_file ∅ no_faults)) H4).
Defined.



(** ** Names of the temporary files *)

(** X6. A run creates at most two temporary files, under names that no
    file had when the request arrived and that differ from each other;
    their suffixes are [.tmp] or [.aac] for the raw input and [.wav] for
    the converted file. *)
Theorem scratch_names_are_fresh E req fs F :
  let tr := w_trace (transcribe E req (MkWorld fs [] F)).2 in
  NoDup (created tr)
  /\ (length (created tr) <= 2)%nat
  /\ forall p, In p (created tr) ->
       fs !! p = None
       /\ (suffix p = ".tmp" \/ suffix p = ".aac" \/ suffix p = ".wav").
Proof.
  cbv zeta.
  destruct (transcribe_runs E req fs F)
    as [[-> _]|(sfx & B & Hsfx & _ & [(e & kept & _ & ->)|[_ [(e & _ & _ & ->)|(_ & _ & Hc)]]])];
    cbv zeta in *.
  - cbn. split; [constructor|]. split; [lia|]. intros p [].
  - cbn. split; [apply NoDup_singleton|]. split; [lia|].
    intros p [<-|[]]. split; [apply tmp_path_fresh|]. cbn. tauto.
  - assert (Hcr : forall w', w' = (if unlink_denied E (tmp_path fs sfx)
              then MkWorld (<[tmp_path fs sfx:=B]> fs)
                     [EvCreate (tmp_path fs sfx); EvWrite (tmp_path fs sfx) B;
                      EvUnlink (tmp_path fs sfx) false] F
              else MkWorld (delete (tmp_path fs sfx) (<[tmp_path fs sfx:=B]> fs))
                     [EvCreate (tmp_path fs sfx); EvWrite (tmp_path fs sfx) B;
                      EvUnlink (tmp_path fs sfx) true] F) ->
            created (w_trace w') = [tmp_path fs sfx])
      by (intros w' ->; by destruct (unlink_denied E _)).
    rewrite (Hcr _ eq_refl).
    split; [apply NoDup_singleton|]. split; [cbn; lia|].
    intros p [<-|[]]. split; [apply tmp_path_fresh|]. cbn. tauto.
  - set (p := tmp_path fs sfx) in *. set (fs1 := <[p:=B]> fs) in *.
    set (pw := tmp_path fs1 ".wav") in *. set (fs2 := <[pw:=[]]> fs1) in *.
    set (tr2 := [_; _; _; _]) in *.
    apply cleanup_result_trace in Hc as (evs & Htr & _ & _ & Hcr & _).
    rewrite Htr, with_faults_trace. clear Htr.
    destruct (after_body_trace E p pw fs2 tr2) as (evs' & Htr & Hcr' & _ & _).
    rewrite Htr, !created_app, Hcr, Hcr'. cbn.
    pose proof (tmp_path_fresh fs1 ".wav") as Hfr. fold pw in Hfr.
    assert (Hne : p <> pw).
    { intros Heq. rewrite <- Heq in Hfr. unfold fs1 in Hfr.
      by rewrite lookup_insert_eq in Hfr. }
    split.
    { apply NoDup_cons. split; [|apply NoDup_singleton].
      intros Hin. apply list_elem_of_singleton in Hin. done. }
    split; [lia|]. intros q [<-|[<-|[]]].
    + split; [apply tmp_path_fresh|]. cbn. tauto.
    + split; [|cbn; tauto]. unfold fs1 in Hfr.
      by rewrite lookup_insert_ne in Hfr.
Qed.

(** ** The response and the deletions *)

(** X7. The [finally] block swallows every exception: on any storage,
    two environments that agree on the conversion tool and on the
    backend give the same response, whatever [os.unlink] does in each. *)
Theorem response_independent_of_deletions E E' req fs F :
  subprocess_run E' = subprocess_run E ->
  requests_post E' = requests_post E ->
  (transcribe E' req (MkWorld fs [] F)).1 = (transcribe E req (MkWorld fs [] F)).1.
Proof.
  intros H1 H2. rewrite !transcribe_spec.
  destruct (ingest req (MkWorld fs [] F)) as [[e|[early|p]] [fs1 tr1 F1]];
    [done|done|].
  cbn [w_fs w_trace w_faults].
  destruct (create_fault F1 ".wav"); [done|].
  cbv zeta. rewrite !transcribe_body_faults. cbv zeta. cbn [fst].
  by rewrite H1, (after_body_env E E').
Qed.

Lemma response_independent_of_deletions_witness :
  (transcribe env_keep_input req_multipart (init ∅)).1 =
  (transcribe env_ok req_multipart (init ∅)).1.
Proof.
  apply (response_independent_of_deletions env_ok env_keep_input req_multipart ∅ no_faults);
    reflexivity.
Defined.

(** ** The Transcoder's effects *)

(** X8. [convert_audio_to_wav] runs the tool once and does nothing else
    to the world: it adds one event to the trace and leaves the files as
    the tool left them; it neither creates nor deletes a file, so that a
    failed conversion leaves its partial output in place.  When it
    returns, it returns [True] and the output file is not empty. *)
Theorem convert_audio_to_wav_effects E i o w :
  let out := subprocess_run E (ffmpeg_cmd i o) (w_fs w) in
  let r := convert_audio_to_wav E i o w in
  w_trace r.2 = w_trace w ++ [EvRun (ffmpeg_cmd i o) (w_fs w) out]
  /\ w_faults r.2 = w_faults w
  /\ w_fs r.2 = match out with
                | RunNotFound => w_fs w
                | RunCompleted _ _ fs' | RunRaises _ _ fs' => fs'
                end
  /\ forall b, r.1 = inr b -> b = true /\ exists c0 c, w_fs r.2 !! o = Some (c0 :: c).
Proof.
  cbv zeta. rewrite convert_spec. cbv zeta.
  destruct (subprocess_run E (ffmpeg_cmd i o) (w_fs w)) as [|rc err fs'|e x fs'];
    cbn [fst snd w_trace w_fs w_faults log];
    (split; [reflexivity|]); (split; [reflexivity|]); (split; [reflexivity|]);
    intros b Hb; try discriminate Hb.
  destruct (negb (rc =? 0)); [discriminate Hb|]. unfold unusable in Hb.
  destruct (fs' !! o) as [[|c0 c]|]; try discriminate Hb.
  injection Hb as <-. eauto.
Qed.

Lemma convert_audio_to_wav_effects_witness :
  let i := Path 1 ".tmp" in
  let o := Path 2 ".wav" in
  let r := convert_audio_to_wav env_ok i o (init {[ i := sample_bytes; o := [] ]}) in
  r.1 = inr true /\ exists c0 c, w_fs r.2 !! o = Some (c0 :: c).
Proof.
  cbv zeta. split; [vm_compute; reflexivity|].
  apply (proj2 (proj2 (proj2
           (convert_audio_to_wav_effects env_ok (Path 1 ".tmp") (Path 2 ".wav")
              (init {[ Path 1 ".tmp" := sample_bytes; Path 2 ".wav" := [] ]})))) true).
  vm_compute. reflexivity.
Defined.

(** ** The language-model relay *)

(** X9. [ask_ollama] leaves the files alone and sends at most one
    request, to the generation endpoint, whatever the request: the final
    world is the initial one, or the initial one with that request
    logged.  Its status is 200, 400 or 500, and a 400 is the answer for a
    missing prompt, given before anything is sent. *)
Theorem ask_ollama_effects E req w :
  let run := ask_ollama E req w in
  (run.2 = w
   \/ exists payload, run.2 = log (EvPost OLLAMA_URL (JsonBody payload)
                                     (requests_post E OLLAMA_URL (JsonBody payload))) w)
  /\ (run.1.2 = 200 \/ run.1.2 = 400 \/ run.1.2 = 500)
  /\ (run.1.2 = 400 -> run = ((error_body "No prompt provided", 400), w)).
Proof.
  cbv zeta. unfold ask_ollama, handle, bind, lift.
  destruct (get_json req) as [e|data]; [cbn; intuition discriminate|].
  destruct (missing_key "prompt" data) as [e|[]]; [cbn; intuition discriminate|cbn; intuition| ].
  destruct (py_get data "model" (JStr "llama3.1:8b")) as [e|model];
    [cbn; intuition discriminate|].
  destruct (py_getitem data "prompt") as [e|prompt]; [cbn; intuition discriminate|].
  unfold post.
  destruct (requests_post E OLLAMA_URL _) as [e|r] eqn:Ho;
    [cbn [fst snd]; split; [right; eexists; by rewrite Ho|cbn; intuition discriminate]|].
  destruct (raise_for_status OLLAMA_URL r) as [e|[]];
    [cbn [fst snd]; split; [right; eexists; by rewrite Ho|cbn; intuition discriminate]|].
  destruct (resp_json r) as [e|result];
    [cbn [fst snd]; split; [right; eexists; by rewrite Ho|cbn; intuition discriminate]|].
  destruct (py_get result "response" (JStr "")) as [e|answer];
    cbn [fst snd]; (split; [right; eexists; by rewrite Ho|cbn; intuition discriminate]).
Qed.

Lemma ask_ollama_effects_witness :
  ask_ollama env_ok (req_json (JObj ∅)) (init ∅) =
    ((error_body "No prompt provided", 400), init ∅).
Proof.
  apply (proj2 (proj2 (ask_ollama_effects env_ok (req_json (JObj ∅)) (init ∅)))).
  vm_compute. reflexivity.
Defined.

Lemma scratch_names_are_fresh_witness :
  let fs : filesystem := {[ Path 1 ".wav" := sample_bytes ]} in
  let tr := w_trace (transcribe env_ok req_multipart (init fs)).2 in
  created tr = [Path 2 ".tmp"; Path 3 ".wav"]
  /\ fs !! Path 3 ".wav" = None.
Proof.
  cbv zeta.
  assert (Hcr : created (w_trace (transcribe env_ok req_multipart
                                    (init {[ Path 1 ".wav" := sample_bytes ]})).2)
                = [Path 2 ".tmp"; Path 3 ".wav"]) by (vm_compute; reflexivity).
  split; [exact Hcr|].
  apply (proj2 (proj2 (scratch_names_are_fresh env_ok req_multipart
                         {[ Path 1 ".wav" := sample_bytes ]} no_faults))).
  unfold init in Hcr. rewrite Hcr. right. left. reflexivity.
Defined.

(** ** Ingestion: the remaining branches *)

Lemma transcribe_ingest_eq E req req' w :
  ingest req' w = ingest req w -> transcribe E req' w = transcribe E req w.
Proof. intros H. by rewrite !transcribe_spec, H. Qed.

(** X10. A request whose content type names neither
    [multipart/form-data] nor [application/json] (or that has no content
    type at all) is answered with 400 and the message "Invalid content
    type. Use multipart/form-data or application/json"; nothing is
    created, run or sent. *)
Theorem invalid_content_type_rejected E req w :
  content_type_has "multipart/form-data" req = false ->
  content_type_has "application/json" req = false ->
  transcribe E req w =
    ((error_body "Invalid content type. Use multipart/form-data or application/json",
      400), w).
Proof.
  intros Hmp Hjs. rewrite transcribe_spec. unfold ingest. by rewrite Hmp, Hjs.
Qed.

Lemma invalid_content_type_rejected_witness :
  transcribe env_ok (Request None ∅ (inr (JObj {[ "audio_data" := JStr "YWI=" ]})))
    (init ∅) =
    ((error_body "Invalid content type. Use multipart/form-data or application/json",
      400), init ∅).
Proof.
  apply (invalid_content_type_rejected env_ok _ (init ∅)); reflexivity.
Defined.

(** X11. The multipart branch is tested first: when the content type
    names [multipart/form-data], the JSON body is never looked at, and
    the run is the same whatever [request.get_json()] would do. *)
Theorem multipart_takes_precedence E req j w :
  content_type_has "multipart/form-data" req = true ->
  transcribe E (with_json req j) w = transcribe E req w.
Proof.
  intros Hmp. apply transcribe_ingest_eq. unfold ingest.
  assert (Hmp' : content_type_has "multipart/form-data" (with_json req j) = true)
    by exact Hmp.
  by rewrite Hmp, Hmp'.
Qed.

Lemma multipart_takes_precedence_witness :
  transcribe env_ok
    (with_json (Request (Some "multipart/form-data; x=application/json")
                        {[ "file" := Upload "a" sample_bytes ]} (inr JNull))
               (inr (JObj {[ "audio_data" := JStr "" ]}))) (init ∅)
  = transcribe env_ok
      (Request (Some "multipart/form-data; x=application/json")
               {[ "file" := Upload "a" sample_bytes ]} (inr JNull)) (init ∅).
Proof.
  apply (multipart_takes_precedence env_ok). reflexivity.
Defined.

(** X12. A JSON body that is not an object never gets past ingestion:
    the world is left as it was, and the answer is the 400 for a missing
    [audio_data] when the membership test says the key is absent (always
    for a falsy body), and a 500 otherwise (the test or the subscript
    raises a [TypeError]). *)
Theorem non_object_body_stops_at_ingestion E req w data :
  content_type_has "multipart/form-data" req = false ->
  content_type_has "application/json" req = true ->
  get_json req = inr data ->
  is_object data = false ->
  (transcribe E req w).2 = w
  /\ match missing_key "audio_data" data with
     | inr true =>
         (transcribe E req w).1 =
           (error_body "No audio_data provided in JSON", 400)
     | _ => (transcribe E req w).1.2 = 500
     end.
Proof.
  intros Hmp Hjs Hd Hobj. rewrite transcribe_spec. unfold ingest, bind, lift.
  rewrite Hmp, Hjs, Hd.
  destruct (missing_key "audio_data" data) as [e|[]]; [done|done|].
  destruct data; try discriminate; done.
Qed.

Lemma non_object_body_stops_at_ingestion_witness :
  (transcribe env_ok (req_json (JArr [JStr "audio_data"])) (init ∅)).2 = init ∅
  /\ (transcribe env_ok (req_json (JArr [JStr "audio_data"])) (init ∅)).1.2 = 500.
Proof.
  apply (non_object_body_stops_at_ingestion env_ok
           (req_json (JArr [JStr "audio_data"])) (init ∅) (JArr [JStr "audio_data"]));
    reflexivity.
Defined.

(** X13. When [audio_data] is present but is not a string: a number, a
    boolean or [null] has no [len()], the exception is raised outside the
    decoder's [try] block and the answer is 500; an array or an object has
    a length, the decoder refuses it, and the answer is the 400 for
    invalid base64.  In both cases no file is created. *)
Theorem audio_data_not_a_string E req w m v :
  content_type_has "multipart/form-data" req = false ->
  content_type_has "application/json" req = true ->
  get_json req = inr (JObj m) ->
  m !! "audio_data" = Some v ->
  is_string v = false ->
  transcribe E req w =
    (if is_scalar v
     then (error_body ("object of type '" +:+ type_name v +:+ "' has no len()"), 500)
     else (error_body
             ("Invalid base64 audio data: "
              +:+ "argument should be a bytes-like object or ASCII string, not '"
              +:+ type_name v +:+ "'"), 400),
     w).
Proof.
  intros Hmp Hjs Hd Hk Hv. rewrite transcribe_spec. unfold ingest, bind, lift.
  rewrite Hmp, Hjs, Hd, (missing_key_present _ _ _ Hk). cbn [py_getitem].
  rewrite Hk. by destruct v.
Qed.

Lemma audio_data_not_a_string_witness :
  transcribe env_ok (req_json (JObj {[ "audio_data" := JNum 7 ]})) (init ∅) =
    ((error_body "object of type 'int' has no len()", 500), init ∅)
  /\ transcribe env_ok (req_json (JObj {[ "audio_data" := JArr [] ]})) (init ∅) =
       ((error_body
           ("Invalid base64 audio data: "
            +:+ "argument should be a bytes-like object or ASCII string, not 'list'"),
         400), init ∅).
Proof.
  split.
  - apply (audio_data_not_a_string env_ok _ (init ∅) {[ "audio_data" := JNum 7 ]} (JNum 7));
      reflexivity.
  - apply (audio_data_not_a_string env_ok _ (init ∅) {[ "audio_data" := JArr [] ]} (JArr []));
      reflexivity.
Defined.

(** ** The decoder is lenient *)

Lemma a2b_base64_skips s : forall q l p acc,
  a2b_base64 (keep_significant s) q l p acc = a2b_base64 s q l p acc.
Proof.
  induction s as [|c s IH]; intros q l p acc; [reflexivity|].
  cbn [keep_significant]. unfold base64_significant.
  destruct (Ascii.eqb c BASE64_PAD) eqn:Hpad; cbn [orb].
  - cbn [a2b_base64]. rewrite Hpad.
    destruct ((2 <=? q) && (4 <=? q + (p + 1))); [reflexivity|apply IH].
  - destruct (Z.ltb_spec (table_a2b_base64 c) 64) as [Hlt|Hge].
    + cbn [a2b_base64]. rewrite Hpad. cbv zeta.
      replace (64 <=? table_a2b_base64 c) with false by (symmetry; apply Z.leb_gt; lia).
      destruct (q =? 0); [apply IH|]. destruct (q =? 1); [apply IH|].
      destruct (q =? 2); apply IH.
    + rewrite IH. cbn [a2b_base64]. rewrite Hpad. cbv zeta.
      replace (64 <=? table_a2b_base64 c) with true by (symmetry; apply Z.leb_le; lia).
      reflexivity.
Qed.

Lemma is_ascii_keep_significant s :
  is_ascii s = true -> is_ascii (keep_significant s) = true.
Proof.
  induction s as [|c s IH]; [done|]. cbn [is_ascii keep_significant].
  intros H. apply andb_prop in H as [Hc Hs].
  destruct (base64_significant c); [cbn [is_ascii]; by rewrite Hc, IH|by apply IH].
Qed.

Lemma b64decode_str_skips s :
  is_ascii s = true -> b64decode_str (keep_significant s) = b64decode_str s.
Proof.
  intros H. unfold b64decode_str.
  by rewrite H, (is_ascii_keep_significant s H), a2b_base64_skips.
Qed.

(** X14. [base64.b64decode] is called without [validate=True]: in an
    ASCII [audio_data], the characters that are neither in the base64
    alphabet nor the pad (spaces, line breaks, ...) are ignored.  A JSON
    request and the same request with those characters removed from
    [audio_data] are handled in the same way: same response, same files,
    same calls. *)
Theorem ignored_characters_in_audio_data E req w m s :
  content_type_has "multipart/form-data" req = false ->
  content_type_has "application/json" req = true ->
  get_json req = inr (JObj m) ->
  m !! "audio_data" = Some (JStr s) ->
  is_ascii s = true ->
  transcribe E
    (with_json req (inr (JObj (<["audio_data" := JStr (keep_significant s)]> m)))) w
  = transcribe E req w.
Proof.
  intros Hmp Hjs Hd Hk Hs. apply transcribe_ingest_eq.
  set (m' := <["audio_data" := JStr (keep_significant s)]> m).
  assert (Hk' : m' !! "audio_data" = Some (JStr (keep_significant s)))
    by apply lookup_insert_eq.
  unfold ingest, bind, lift.
  change (content_type_has "multipart/form-data" (with_json req (inr (JObj m'))))
    with (content_type_has "multipart/form-data" req).
  change (content_type_has "application/json" (with_json req (inr (JObj m'))))
    with (content_type_has "application/json" req).
  rewrite Hmp, Hjs, Hd. cbn [get_json with_json].
  rewrite (missing_key_present _ _ _ Hk), (missing_key_present _ _ _ Hk').
  cbn [py_getitem]. rewrite Hk, Hk'. cbn [py_len]. unfold b64decode.
  by rewrite (b64decode_str_skips s Hs).
Qed.

Lemma ignored_characters_in_audio_data_witness :
  keep_significant "Y W-I =" = "YWI="
  /\ transcribe env_ok
       (with_json (req_audio "Y W-I =")
          (inr (JObj (<["audio_data" := JStr (keep_significant "Y W-I =")]>
                        {[ "audio_data" := JStr "Y W-I =" ]})))) (init ∅)
     = transcribe env_ok (req_audio "Y W-I =") (init ∅).
Proof.
  split; [reflexivity|].
  assert (Hk : ({[ "audio_data" := JStr "Y W-I =" ]} : gmap string json) !! "audio_data"
               = Some (JStr "Y W-I =")) by (vm_compute; reflexivity).
  exact (ignored_characters_in_audio_data env_ok (req_audio "Y W-I =") (init ∅)
           _ _ eq_refl eq_refl eq_refl Hk eq_refl).
Defined.

(** ** What a run touches *)

(** X15. The handler writes to and deletes only the temporary files it
    created itself, it runs the tool on these two files only, and every
    request it sends goes to the transcription endpoint: each event of a
    run is of one of these kinds. *)
Theorem only_scratch_files_touched E req fs F ev :
  let tr := w_trace (transcribe E req (MkWorld fs [] F)).2 in
  In ev tr ->
  match ev with
  | EvCreate q => fs !! q = None
  | EvWrite q _ | EvWriteFailed q _ | EvUnlink q _ => In q (created tr)
  | EvRun cmd _ _ => exists p pw, cmd = ffmpeg_cmd p pw /\ created tr = [p; pw]
  | EvPost url _ _ => url = WHISPER_URL
  end.
Proof.
  cbv zeta.
  destruct (transcribe_runs E req fs F)
    as [[-> _]|(sfx & B & _ & _ & [(e & kept & _ & ->)|[_ [(e & _ & _ & ->)|(_ & _ & Hc)]]])];
    cbv zeta in *.
  - intros [].
  - cbn. intros [<-|[<-|[]]]; [apply tmp_path_fresh|by left].
  - destruct (unlink_denied E _); cbn; intros [<-|[<-|[<-|[]]]];
      solve [apply tmp_path_fresh|by left].
  - set (p := tmp_path fs sfx) in *. set (fs1 := <[p:=B]> fs) in *.
    set (pw := tmp_path fs1 ".wav") in *. set (fs2 := <[pw:=[]]> fs1) in *.
    set (tr2 := [_; _; _; _]) in *.
    destruct (after_body_trace E p pw fs2 tr2) as (evs' & Htr' & Hcr' & _ & Hevs).
    assert (Hcr : created (w_trace (transcribe E req (MkWorld fs [] F)).2) = [p; pw]).
    { apply cleanup_result_trace in Hc as (evs & Htr & _ & _ & Hcr & _).
      by rewrite Htr, with_faults_trace, Htr', !created_app, Hcr, Hcr'. }
    rewrite Hcr.
    pose proof (tmp_path_fresh fs1 ".wav") as Hfr. fold pw in Hfr.
    assert (Hne : p <> pw).
    { intros Heq. rewrite <- Heq in Hfr. unfold fs1 in Hfr.
      by rewrite lookup_insert_eq in Hfr. }
    assert (Hpw : fs !! pw = None)
      by (unfold fs1 in Hfr; by rewrite lookup_insert_ne in Hfr).
    assert (Hbody : In ev (tr2 ++ evs') ->
              match ev with
              | EvCreate q => fs !! q = None
              | EvWrite q _ | EvWriteFailed q _ | EvUnlink q _ => In q [p; pw]
              | EvRun cmd _ _ => exists p0 pw0, cmd = ffmpeg_cmd p0 pw0 /\ [p; pw] = [p0; pw0]
              | EvPost url _ _ => url = WHISPER_URL
              end).
    { intros Hin. apply in_app_iff in Hin as [Hin|Hin].
      - cbn in Hin. destruct Hin as [<-|[<-|[<-|[<-|[]]]]];
          [apply tmp_path_fresh|by left|exact Hpw|by exists p, pw].
      - destruct Hevs as [->|(body & o & ->)]; [destruct Hin|].
        by destruct Hin as [<-|[]]. }
    inversion Hc as [Hf Heq|Hf Heq|Hf Heq]; clear Hc;
      unfold log; cbn [w_fs w_trace with_faults]; rewrite Htr'; intros Hin;
      (apply in_app_iff in Hin as [Hin|Hin]; [exact (Hbody Hin)|]);
      cbn in Hin; repeat (destruct Hin as [<-|Hin]; [cbn; auto|]); destruct Hin.
Qed.

Lemma only_scratch_files_touched_witness :
  In (Path 1 ".tmp")
     (created (w_trace (transcribe env_ok req_multipart (init ∅)).2)).
Proof.
  assert (Hin : In (EvUnlink (Path 1 ".tmp") true)
                   (w_trace (transcribe env_ok req_multipart (init ∅)).2)).
  { vm_compute. do 5 right. left. reflexivity. }
  exact (only_scratch_files_touched env_ok req_multipart ∅ no_faults _ Hin).
Defined.

(** ** Replies the handler cannot read *)

Lemma transcribe_reply E req fs F url form r :
  In (EvPost url form (PostReturns r)) (w_trace (transcribe E req (MkWorld fs [] F)).2) ->
  (transcribe E req (MkWorld fs [] F)).1 = to_response (whisper_result r).
Proof.
  destruct (transcribe_runs E req fs F)
    as [[-> _]|(sfx & B & _ & _ & [(e & kept & _ & ->)|[_ [(e & _ & _ & ->)|(_ & Hr & Hc)]]])];
    cbv zeta in *.
  - intros [].
  - cbn. intros H; exfalso; intuition discriminate.
  - destruct (unlink_denied E _); cbn; intros H; exfalso; intuition discriminate.
  - set (p := tmp_path fs sfx) in *. set (fs1 := <[p:=B]> fs) in *.
    set (pw := tmp_path fs1 ".wav") in *. set (fs2 := <[pw:=[]]> fs1) in *.
    set (tr2 := [_; _; _; _]) in *. rewrite Hr.
    apply cleanup_result_trace in Hc as (evs & Htr & _ & _ & _ & Hun).
    rewrite Htr, with_faults_trace. clear Htr.
    destruct (after_body_cases E p pw fs2 tr2)
      as [(Ht & _)|(err & fs3 & b & c & _ & _ & Ht & He)];
      cbv zeta in *; rewrite Ht; intros Hin.
    + exfalso. apply in_app_iff in Hin as [Hin|Hin].
      * cbn in Hin. intuition discriminate.
      * apply Hun in Hin as (q & ok & Hq). discriminate.
    + rewrite He.
      apply in_app_iff in Hin as [Hin|Hin].
      * apply in_app_iff in Hin as [Hin|Hin]; cbn in Hin.
        -- exfalso. intuition discriminate.
        -- destruct Hin as [Heq|[]]. injection Heq as _ _ ->. done.
      * apply Hun in Hin as (q & ok & Hq). discriminate.
Qed.

(** X16. A reply of the speech-to-text backend that the handler cannot
    read gives a 500, although the status of the reply let it through: a
    body that is not JSON gives the text of the parse error; a JSON value
    that is not an object has no [get]; an object whose [text] is present
    and is not a string ([null], a number, ...) has no [strip], the
    default of [get] applying to an absent key only. *)
Theorem unreadable_reply_is_500 E req fs F url form r :
  let run := transcribe E req (MkWorld fs [] F) in
  In (EvPost url form (PostReturns r)) (w_trace run.2) ->
  ~ (400 <= status_code r < 600) ->
  (forall e, resp_json r = inl e -> run.1 = (error_body (str_exn e), 500))
  /\ (forall result, resp_json r = inr result -> is_object result = false ->
        run.1 = (error_body ("'" +:+ type_name result
                             +:+ "' object has no attribute 'get'"), 500))
  /\ (forall m v, resp_json r = inr (JObj m) -> m !! "text" = Some v ->
        is_string v = false ->
        run.1 = (error_body ("'" +:+ type_name v
                             +:+ "' object has no attribute 'strip'"), 500)).
Proof.
  cbv zeta. intros Hin Hst. rewrite (transcribe_reply E req fs F url form r Hin).
  unfold whisper_result, raise_for_status.
  destruct (_ && _) eqn:H4; [lia|].
  destruct ((500 <=? _) && _) eqn:H5; [lia|].
  split; [|split].
  - by intros e ->.
  - intros result -> Hobj. unfold shape_result. by destruct result.
  - intros m v -> Hk Hv. unfold shape_result. cbn [py_get]. rewrite Hk. cbn [default].
    by destruct v.
Qed.

Lemma unreadable_reply_is_500_witness :
  (transcribe env_null_text req_multipart (init ∅)).1
  = (error_body "'NoneType' object has no attribute 'strip'", 500).
Proof.
  assert (Hin : In (EvPost WHISPER_URL (whisper_form ["R"%byte; "I"%byte])
                      (PostReturns (HttpResponse 200 "OK" (inr (JObj {[ "text" := JNull ]})))))
                   (w_trace (transcribe env_null_text req_multipart (init ∅)).2)).
  { vm_compute. do 4 right. left. reflexivity. }
  assert (Hst : ~ (400 <= status_code (HttpResponse 200 "OK"
                                         (inr (JObj {[ "text" := JNull ]}))) < 600))
    by (cbn; lia).
  assert (Hk : ({[ "text" := JNull ]} : gmap string json) !! "text" = Some JNull)
    by (vm_compute; reflexivity).
  exact (proj2 (proj2 (unreadable_reply_is_500 env_null_text req_multipart ∅ no_faults _ _ _ Hin Hst))
           _ JNull eq_refl Hk eq_refl).
Defined.

(** ** The text of a successful response *)

Lemma lstrip_no_lead s : starts_with_space (lstrip s) = false.
Proof.
  induction s as [|c t IH]; [reflexivity|]. cbn [lstrip].
  destruct (is_space c) eqn:Hc; [exact IH|]. cbn. exact Hc.
Qed.

Lemma rstrip_no_trail s : ends_with_space (rstrip s) = false.
Proof.
  induction s as [|c t IH]; [reflexivity|]. cbn [rstrip].
  destruct (rstrip t) as [|d t'] eqn:Hr.
  - destruct (is_space c) eqn:Hc; [reflexivity|]. cbn. exact Hc.
  - exact IH.
Qed.

Lemma rstrip_keeps_lead s :
  starts_with_space s = false -> starts_with_space (rstrip s) = false.
Proof.
  destruct s as [|c t]; [done|]. cbn [starts_with_space rstrip]. intros Hc.
  destruct (rstrip t); [|exact Hc]. rewrite Hc. exact Hc.
Qed.

Lemma lstrip_id s : starts_with_space s = false -> lstrip s = s.
Proof. destruct s as [|c t]; [done|]. cbn. by intros ->. Qed.

Lemma rstrip_id s : ends_with_space s = false -> rstrip s = s.
Proof.
  induction s as [|c t IH]; [done|]. cbn [ends_with_space rstrip].
  destruct t as [|d t'].
  - cbn. by intros ->.
  - intros H. rewrite (IH H). done.
Qed.

(** X17. The text of a successful response is trimmed: it neither
    starts nor ends with white space, and stripping it again changes
    nothing. *)
Theorem response_text_is_trimmed result b :
  shape_result result = inr b ->
  exists m t,
    b = JObj m /\ m !! "text" = Some (JStr t)
    /\ starts_with_space t = false /\ ends_with_space t = false
    /\ strip t = t.
Proof.
  intros H. apply shape_result_inr in H as (m & t & -> & _ & ->).
  eexists _, (strip t). split; [reflexivity|].
  split; [by rewrite lookup_insert_ne, lookup_insert_eq|].
  assert (H1 : starts_with_space (strip t) = false)
    by apply rstrip_keeps_lead, lstrip_no_lead.
  assert (H2 : ends_with_space (strip t) = false) by apply rstrip_no_trail.
  split; [exact H1|]. split; [exact H2|].
  unfold strip at 1. by rewrite (lstrip_id _ H1), (rstrip_id _ H2).
Qed.

Lemma response_text_is_trimmed_witness :
  exists m t,
    JObj {[ "status" := JStr "success"; "text" := JStr "hello world";
            "language" := JStr "en" ]} = JObj m
    /\ m !! "text" = Some (JStr t)
    /\ starts_with_space t = false /\ ends_with_space t = false
    /\ strip t = t.
Proof.
  apply (response_text_is_trimmed whisper_reply).
  vm_compute. reflexivity.
Defined.
